(** * Todo manager and blog manager: a shallow embedding

    The two managers of the repository (the [TodoManager] class and the
    [BlogManager] class) keep an ordered collection in memory and mirror
    it to [localStorage].  Both are embedded here as state-passing
    programs in a small state-and-exception monad:

    - a JavaScript string is a [string]; each [ascii] stands for one
      UTF-16 code unit below 256 (the Latin-1 range), on which [trim],
      [toLowerCase], [includes], [split] and [substring] are written out;
    - an array is a [list]; [unshift] is [cons], [splice(i, 1)] is
      stdpp's [delete i], [a[i] = v] is [<[i:=v]>], the in-place update of
      the object returned by [find] is [alter] at the first matching index;
    - [localStorage] is a [gmap string string];
    - a thrown exception ends the computation with the state reached so
      far ([Throw]); [try]/[catch] is [try_catch];
    - what the browser supplies ([Date.now], [toISOString],
      [JSON.stringify], [JSON.parse], the answer to [confirm]) is a
      [Platform] record the managers are parametrised by;
    - of the page, the state keeps which records are shown, the counters
      and the toasts; markup, styling and the binding of listeners are
      left out, and a handler that reads form fields takes their values
      as arguments. *)

From Stdlib Require Import NArith Ascii String DecimalString DecimalPos.
From stdpp Require Import gmap strings list.

Open Scope string_scope.

(** ** JavaScript strings *)

Module Js.

(** [WhiteSpace] and [LineTerminator] code units below 256: TAB, LF, VT,
    FF, CR, SP and NBSP.  These are the code units [trim] strips and
    [\s] matches. *)
Definition isWhiteSpace (c : ascii) : bool :=
  let n := nat_of_ascii c in
  (((9 <=? n) && (n <=? 13)) || (n =? 32) || (n =? 160))%nat.

Fixpoint trimStart (s : string) : string :=
  match s with
  | EmptyString => EmptyString
  | String c s' => if isWhiteSpace c then trimStart s' else s
  end.

Fixpoint trimEnd (s : string) : string :=
  match s with
  | EmptyString => EmptyString
  | String c s' =>
      match trimEnd s' with
      | EmptyString => if isWhiteSpace c then EmptyString else String c EmptyString
      | t => String c t
      end
  end.

(** [String.prototype.trim] *)
Definition trim (s : string) : string := trimEnd (trimStart s).

(** A string in a condition: the empty string is falsy, any other truthy. *)
Definition truthy (s : string) : bool :=
  match s with EmptyString => false | String _ _ => true end.

(** [String.prototype.toLowerCase], one code unit: A-Z and the Latin-1
    capitals 192-222 (but not the multiplication sign 215) move up by 32. *)
Definition lowerChar (c : ascii) : ascii :=
  let n := nat_of_ascii c in
  if (((65 <=? n) && (n <=? 90))
      || ((192 <=? n) && (n <=? 222) && negb (n =? 215)))%nat
  then ascii_of_nat (n + 32) else c.

Fixpoint toLowerCase (s : string) : string :=
  match s with
  | EmptyString => EmptyString
  | String c s' => String (lowerChar c) (toLowerCase s')
  end.

(** [s.includes(q)]: [q] occurs in [s] at some position. *)
Fixpoint includes (s q : string) : bool :=
  String.prefix q s ||
  match s with
  | EmptyString => false
  | String _ s' => includes s' q
  end.

(** [s.split(sep)] for a one-character separator. *)
Fixpoint split (sep : ascii) (s : string) : list string :=
  match s with
  | EmptyString => [EmptyString]
  | String c s' =>
      if Ascii.eqb c sep then EmptyString :: split sep s'
      else match split sep s' with
           | h :: t => String c h :: t
           | [] => [String c EmptyString]
           end
  end.

(** [s.split(/\s+/)]: the pieces between maximal runs of white space;
    [inWs] tells that the previous code unit was white space. *)
Fixpoint splitWs (inWs : bool) (s : string) : list string :=
  match s with
  | EmptyString => [EmptyString]
  | String c s' =>
      if isWhiteSpace c
      then if inWs then splitWs true s' else EmptyString :: splitWs true s'
      else match splitWs false s' with
           | h :: t => String c h :: t
           | [] => [String c EmptyString]
           end
  end.

(** [s.substring(0, n)] *)
Definition substring0 (n : nat) (s : string) : string := String.substring 0 n s.

(** [Number.prototype.toString] of a non-negative integer (base 10). *)
Definition toString (n : N) : string := NilEmpty.string_of_uint (N.to_uint n).

(** The double-quote character, as a one-character string. *)
Definition dquote : string := String (ascii_of_nat 34) EmptyString.

(** Exceptions the modelled code can meet. *)
Inductive error : Type :=
  | QuotaExceededError   (* localStorage.setItem refused the write *)
  | SyntaxError.         (* JSON.parse met malformed text *)

(** A computation over a state [S]: it returns, or throws, and in both
    cases leaves the state it reached. *)
Inductive completion (S A : Type) : Type :=
  | Normal (a : A) (s : S)
  | Throw (e : error) (s : S).
Arguments Normal {S A} a s.
Arguments Throw {S A} e s.

Definition js (S A : Type) : Type := S -> completion S A.

Definition ret {S A} (a : A) : js S A := fun s => Normal a s.
Definition throw {S A} (e : error) : js S A := fun s => Throw e s.
Definition bind {S A B} (m : js S A) (k : A -> js S B) : js S B :=
  fun s => match m s with
           | Normal a s' => k a s'
           | Throw e s' => Throw e s'
           end.
Definition try_catch {S A} (m : js S A) (handler : error -> js S A) : js S A :=
  fun s => match m s with
           | Normal a s' => Normal a s'
           | Throw e s' => handler e s'
           end.
Definition get {S} : js S S := fun s => Normal s s.
Definition modify {S} (f : S -> S) : js S unit := fun s => Normal tt (f s).

(** The state a computation ends in, whether it returned or threw. *)
Definition final {S A} (c : completion S A) : S :=
  match c with Normal _ s => s | Throw _ s => s end.

(** [findIndex]: the first index whose element satisfies [p]; [None]
    stands for -1. *)
Fixpoint findIndex {A} (p : A -> bool) (l : list A) : option nat :=
  match l with
  | [] => None
  | x :: l' => if p x then Some 0 else S <$> findIndex p l'
  end.

(** [find]: the first element that satisfies [p]; [None] stands for
    [undefined]. *)
Definition find {A} (p : A -> bool) (l : list A) : option A := List.find p l.

(** The result of a call: [Undefined] for a function that ends without
    a [return] of a value. *)
Inductive value (T : Type) : Type :=
  | Undefined
  | Obj (t : T).
Arguments Undefined {T}.
Arguments Obj {T} t.

(** What the browser supplies to a manager of records of type [T].
    [JSON_parse raw = Some l] stands for a text that is the JSON form of
    an array of records [l], and [None] for a text that is not JSON, on
    which the call throws a [SyntaxError].  These are the texts a manager
    writes and the ones covered here: a text that is JSON of another
    shape ([null], an object, an array that holds something else than
    records) has no counterpart in this type, and nothing below speaks
    about a storage that holds one. *)
Record Platform (T : Type) : Type := {
  Date_now : nat -> N;            (* the n-th reading of the clock, in ms *)
  toISOString : N -> string;      (* Date.prototype.toISOString *)
  JSON_stringify : list T -> string;
  JSON_parse : string -> option (list T);   (* None: SyntaxError *)
  confirm : string -> bool        (* the user's answer to a prompt *)
}.
Arguments Date_now {T} _ _.
Arguments toISOString {T} _ _.
Arguments JSON_stringify {T} _ _.
Arguments JSON_parse {T} _ _.
Arguments confirm {T} _ _.

(** The browser side of the state: the storage area, whether it refuses
    writes (quota exceeded), how many times the clock has been read, and
    the toasts appended to the [#notification] feed (message and kind;
    their removal after three seconds is not modelled). *)
Record Browser : Type := {
  localStorage : gmap string string;
  storageFull : bool;
  clockReads : nat;
  notification : list (string * string)
}.

(** A manager object [this] (with the part of the page it renders into)
    together with the browser. *)
Record State (M : Type) : Type := { this : M; browser : Browser }.
Arguments this {M} _.
Arguments browser {M} _.

Definition update_this {M} (f : M -> M) : js (State M) unit :=
  modify (fun s => {| this := f (this s); browser := browser s |}).

Definition localStorage_getItem {M} (key : string) : js (State M) (option string) :=
  fun s => Normal (localStorage (browser s) !! key) s.

Definition localStorage_setItem {M} (key v : string) : js (State M) unit :=
  fun s =>
    let b := browser s in
    if storageFull b then Throw QuotaExceededError s
    else Normal tt {| this := this s;
                      browser := {| localStorage := <[key := v]> (localStorage b);
                                    storageFull := storageFull b;
                                    clockReads := clockReads b;
                                    notification := notification b |} |}.

(** One reading of the clock ([Date.now()] or [new Date()]). *)
Definition now {M T} (env : Platform T) : js (State M) N :=
  fun s =>
    let b := browser s in
    Normal (Date_now env (clockReads b))
           {| this := this s;
              browser := {| localStorage := localStorage b;
                            storageFull := storageFull b;
                            clockReads := S (clockReads b);
                            notification := notification b |} |}.

(** [showNotification(message, type)]: one toast appended to the feed. *)
Definition showNotification {M} (message type : string) : js (State M) unit :=
  fun s =>
    let b := browser s in
    Normal tt {| this := this s;
                 browser := {| localStorage := localStorage b;
                               storageFull := storageFull b;
                               clockReads := clockReads b;
                               notification := notification b ++ [(message, type)] |} |}.

End Js.

#[global] Instance js_mret {S} : MRet (Js.js S) := @Js.ret S.
#[global] Instance js_mbind {S} : MBind (Js.js S) :=
  fun A B k m => Js.bind m k.

(** ** The todo manager *)

Module TodoManager.
Import Js.

Record Todo : Type := {
  id : string;
  text : string;
  completed : bool;
  priority : string;
  dueDate : string;
  createdAt : string
}.

(** The manager object and what it has put on the page: the items shown
    in [#todo-list] (each card stands for the record it was made from),
    whether [#empty-state] is shown, and the two counters of the
    statistics line.  The page's elements are taken to exist. *)
Record Manager : Type := {
  todos : list Todo;
  currentFilter : string;
  todoList : list Todo;
  emptyState : bool;
  totalTasks : nat;
  completedTasks : nat
}.

Definition set_todos (v : list Todo) (m : Manager) : Manager :=
  {| todos := v; currentFilter := currentFilter m; todoList := todoList m;
     emptyState := emptyState m; totalTasks := totalTasks m;
     completedTasks := completedTasks m |}.

Definition set_currentFilter (v : string) (m : Manager) : Manager :=
  {| todos := todos m; currentFilter := v; todoList := todoList m;
     emptyState := emptyState m; totalTasks := totalTasks m;
     completedTasks := completedTasks m |}.

Definition set_text (v : string) (t : Todo) : Todo :=
  {| id := id t; text := v; completed := completed t; priority := priority t;
     dueDate := dueDate t; createdAt := createdAt t |}.

Definition set_completed (v : bool) (t : Todo) : Todo :=
  {| id := id t; text := text t; completed := v; priority := priority t;
     dueDate := dueDate t; createdAt := createdAt t |}.

(** [t => t.id === id] *)
Definition has_id (i : string) (t : Todo) : bool := String.eqb (id t) i.

(** [getFilteredTodos] *)
Definition getFilteredTodos (m : Manager) : list Todo :=
  let filtered := todos m in
  if String.eqb (currentFilter m) "pending"
  then List.filter (fun todo => negb (completed todo)) filtered
  else if String.eqb (currentFilter m) "completed"
  then List.filter (fun todo => completed todo) filtered
  else filtered.

(** [createTodoHTML] calls [formatDate] for a todo with a due date, and
    [formatDate] compares the date's year with that of [new Date()]: one
    reading of the clock per such card.  The text on a card is not kept
    (the card stands for its record), the readings are counted. *)
Definition formatDate_reads (shown : list Todo) : nat :=
  length (List.filter (fun todo => truthy (dueDate todo)) shown).

(** [render] *)
Definition render : js (State Manager) unit :=
  fun s =>
    let m := this s in
    let b := browser s in
    let filteredTodos := getFilteredTodos m in
    Normal tt
      {| this := {| todos := todos m; currentFilter := currentFilter m;
                    todoList := filteredTodos;
                    emptyState := (length filteredTodos =? 0)%nat;
                    totalTasks := totalTasks m;
                    completedTasks := completedTasks m |};
         browser := {| localStorage := localStorage b;
                       storageFull := storageFull b;
                       clockReads := clockReads b + formatDate_reads filteredTodos;
                       notification := notification b |} |}.

(** [updateStats] *)
Definition updateStats : js (State Manager) unit :=
  update_this (fun m =>
    {| todos := todos m; currentFilter := currentFilter m;
       todoList := todoList m; emptyState := emptyState m;
       totalTasks := length (todos m);
       completedTasks := length (List.filter (fun t => completed t) (todos m)) |}).

Section WithPlatform.
Context (env : Platform Todo).

(** [saveTodos] *)
Definition saveTodos : js (State Manager) unit :=
  try_catch
    (s ← get; localStorage_setItem "todos" (JSON_stringify env (todos (this s))))
    (fun error => showNotification "Error saving todos!" "danger").

(** [loadTodos] *)
Definition loadTodos : js (State Manager) (list Todo) :=
  try_catch
    (saved ← localStorage_getItem "todos";
     match saved with
     | Some raw =>
         if truthy raw
         then match JSON_parse env raw with
              | Some v => ret v
              | None => throw SyntaxError
              end
         else ret []
     | None => ret []
     end)
    (fun error => ret []).

(** [init]; binding the event listeners leaves the state as it is. *)
Definition init : js (State Manager) unit :=
  render;; updateStats.

(** [constructor] *)
Definition constructor : js (State Manager) unit :=
  l ← loadTodos;
  update_this (set_todos l);;
  update_this (set_currentFilter "all");;
  init.

(** [new TodoManager()] in a browser [b]. *)
Definition new (b : Browser) : completion (State Manager) unit :=
  constructor {| this := {| todos := []; currentFilter := ""; todoList := [];
                            emptyState := false; totalTasks := 0;
                            completedTasks := 0 |};
                 browser := b |}.

(** [addTodo(text, priority = 'medium', dueDate = '')]; an argument left
    out is [None]. *)
Definition addTodo (text : string) (priority dueDate : option string)
  : js (State Manager) (value Todo) :=
  t_id ← now env;
  t_created ← now env;
  let todo := {| id := toString t_id;
                 text := text;
                 completed := false;
                 priority := default "medium" priority;
                 dueDate := default "" dueDate;
                 createdAt := toISOString env t_created |} in
  update_this (fun m => set_todos (todo :: todos m) m);;
  saveTodos;;
  render;;
  updateStats;;
  showNotification "Todo added successfully!" "success";;
  ret Undefined.

(** [toggleTodo(id)] *)
Definition toggleTodo (i : string) : js (State Manager) (value Todo) :=
  s ← get;
  match findIndex (has_id i) (todos (this s)) with
  | Some k =>
      update_this (fun m =>
        set_todos (alter (fun todo => set_completed (negb (completed todo)) todo) k (todos m)) m);;
      saveTodos;;
      render;;
      updateStats;;
      s' ← get;
      let message :=
        match todos (this s') !! k with
        | Some todo => if completed todo then "Todo completed!" else "Todo marked as pending"
        | None => "Todo marked as pending"
        end in
      showNotification message "info";;
      ret Undefined
  | None => ret Undefined
  end.

(** [deleteTodo(id)] *)
Definition deleteTodo (i : string) : js (State Manager) (value Todo) :=
  s ← get;
  match findIndex (has_id i) (todos (this s)) with
  | Some todoIndex =>
      update_this (fun m => set_todos (delete todoIndex (todos m)) m);;
      saveTodos;;
      render;;
      updateStats;;
      showNotification "Todo deleted!" "warning";;
      ret Undefined
  | None => ret Undefined
  end.

(** [editTodo(id, newText)] *)
Definition editTodo (i newText : string) : js (State Manager) (value Todo) :=
  s ← get;
  match findIndex (has_id i) (todos (this s)) with
  | Some k =>
      if truthy (trim newText)
      then
        update_this (fun m => set_todos (alter (set_text (trim newText)) k (todos m)) m);;
        saveTodos;;
        render;;
        showNotification "Todo updated!" "success";;
        ret Undefined
      else ret Undefined
  | None => ret Undefined
  end.

(** [setFilter(filter)] *)
Definition setFilter (filter : string) : js (State Manager) (value Todo) :=
  update_this (set_currentFilter filter);;
  render;;
  ret Undefined.

(** [clearCompleted()] *)
Definition clearCompleted : js (State Manager) (value Todo) :=
  s ← get;
  let completedCount := length (List.filter (fun t => completed t) (todos (this s))) in
  if (completedCount =? 0)%nat
  then showNotification "No completed todos to clear!" "info";; ret Undefined
  else
    if confirm env ("Delete " ++ toString (N.of_nat completedCount) ++ " completed todo(s)?")
    then
      update_this (fun m => set_todos (List.filter (fun todo => negb (completed todo)) (todos m)) m);;
      saveTodos;;
      render;;
      updateStats;;
      showNotification (toString (N.of_nat completedCount) ++ " completed todos cleared!") "success";;
      ret Undefined
    else ret Undefined.

(** The submit listener of [#todo-form], given the values of the text
    input, the priority select and the due-date input. *)
Definition todoForm_submit (todoInput prioritySelect dueDateInput : string)
  : js (State Manager) unit :=
  let text := trim todoInput in
  if truthy text
  then addTodo text (Some prioritySelect) (Some dueDateInput);; ret tt
  else ret tt.

(** The click listener of a card's delete button. *)
Definition deleteBtn_click (todoId : string) : js (State Manager) unit :=
  if confirm env "Delete this todo?"
  then deleteTodo todoId;; ret tt
  else ret tt.

End WithPlatform.

End TodoManager.

(** ** The blog manager *)

Module BlogManager.
Import Js.

Record Post : Type := {
  id : string;
  title : string;
  content : string;
  tags : list string;
  excerpt : string;
  createdAt : string
}.

(** The manager object and what it has put on the page: the cards shown
    in [#posts-list], whether [#empty-state] is shown, the two counters,
    and the post shown in [#postViewContainer].  Which of the three views
    is displayed follows [currentView].  The page's elements are taken
    to exist. *)
Record Manager : Type := {
  posts : list Post;
  currentView : string;
  currentPostId : option string;
  postsList : list Post;
  emptyState : bool;
  totalPosts : nat;
  totalWords : nat;
  postViewContainer : option Post
}.

Definition set_posts (v : list Post) (m : Manager) : Manager :=
  {| posts := v; currentView := currentView m; currentPostId := currentPostId m;
     postsList := postsList m; emptyState := emptyState m;
     totalPosts := totalPosts m; totalWords := totalWords m;
     postViewContainer := postViewContainer m |}.

Definition set_currentView (v : string) (m : Manager) : Manager :=
  {| posts := posts m; currentView := v; currentPostId := currentPostId m;
     postsList := postsList m; emptyState := emptyState m;
     totalPosts := totalPosts m; totalWords := totalWords m;
     postViewContainer := postViewContainer m |}.

Definition set_currentPostId (v : option string) (m : Manager) : Manager :=
  {| posts := posts m; currentView := currentView m; currentPostId := v;
     postsList := postsList m; emptyState := emptyState m;
     totalPosts := totalPosts m; totalWords := totalWords m;
     postViewContainer := postViewContainer m |}.

Definition set_postViewContainer (v : option Post) (m : Manager) : Manager :=
  {| posts := posts m; currentView := currentView m; currentPostId := currentPostId m;
     postsList := postsList m; emptyState := emptyState m;
     totalPosts := totalPosts m; totalWords := totalWords m;
     postViewContainer := v |}.

(** [p => p.id === id] *)
Definition has_id (i : string) (p : Post) : bool := String.eqb (id p) i.

(** [generateExcerpt(content, maxLength = 150)] *)
Definition generateExcerpt (content : string) (maxLength : option nat) : string :=
  let maxLength := default 150 maxLength in
  if negb (truthy content) then ""
  else if (maxLength <? String.length content)%nat
       then substring0 maxLength content ++ "..."
       else content.

(** [countWords(text)] *)
Definition countWords (text : string) : nat :=
  if truthy text then length (splitWs false (trim text)) else 0.

(** The predicate of the search filter in [renderPostsList]. *)
Definition matchesQuery (searchQuery : string) (post : Post) : bool :=
  includes (toLowerCase (title post)) (toLowerCase searchQuery)
  || includes (toLowerCase (content post)) (toLowerCase searchQuery)
  || existsb (fun tag => includes (toLowerCase tag) (toLowerCase searchQuery)) (tags post).

(** The local [filtered] of [renderPostsList]. *)
Definition filteredPosts (searchQuery : string) (posts : list Post) : list Post :=
  if truthy searchQuery then List.filter (matchesQuery searchQuery) posts else posts.

(** [renderPostsList(searchQuery = '')] *)
Definition renderPostsList (searchQuery : option string) : js (State Manager) unit :=
  update_this (fun m =>
    let filtered := filteredPosts (default "" searchQuery) (posts m) in
    {| posts := posts m; currentView := currentView m;
       currentPostId := currentPostId m;
       postsList := filtered;
       emptyState := (length filtered =? 0)%nat;
       totalPosts := totalPosts m; totalWords := totalWords m;
       postViewContainer := postViewContainer m |}).

(** [updateStats] *)
Definition updateStats : js (State Manager) unit :=
  update_this (fun m =>
    {| posts := posts m; currentView := currentView m;
       currentPostId := currentPostId m;
       postsList := postsList m; emptyState := emptyState m;
       totalPosts := length (posts m);
       totalWords := fold_left (fun sum post => sum + countWords (content post)) (posts m) 0;
       postViewContainer := postViewContainer m |}).

(** [showPostsList] *)
Definition showPostsList : js (State Manager) unit :=
  update_this (set_currentView "list").

(** [showCreateForm] *)
Definition showCreateForm : js (State Manager) unit :=
  update_this (set_currentView "create").

(** [showEditForm(id)] *)
Definition showEditForm (i : string) : js (State Manager) unit :=
  s ← get;
  match find (has_id i) (posts (this s)) with
  | None => ret tt
  | Some post =>
      update_this (set_currentView "edit");;
      update_this (set_currentPostId (Some i))
  end.

(** [showPostView(id)] *)
Definition showPostView (i : string) : js (State Manager) unit :=
  s ← get;
  match find (has_id i) (posts (this s)) with
  | None => ret tt
  | Some post =>
      update_this (set_currentView "view");;
      update_this (set_postViewContainer (Some post))
  end.

Section WithPlatform.
Context (env : Platform Post).

(** [savePosts] *)
Definition savePosts : js (State Manager) unit :=
  s ← get; localStorage_setItem "blog-posts" (JSON_stringify env (posts (this s))).

(** [loadPosts] *)
Definition loadPosts : js (State Manager) unit :=
  data ← localStorage_getItem "blog-posts";
  match data with
  | Some raw =>
      if truthy raw
      then match JSON_parse env raw with
           | Some v => update_this (set_posts v)
           | None => throw SyntaxError
           end
      else update_this (set_posts [])
  | None => update_this (set_posts [])
  end.

(** [init]; binding the event listeners leaves the state as it is. *)
Definition init : js (State Manager) unit :=
  loadPosts;;
  renderPostsList None;;
  updateStats;;
  showPostsList.

(** [constructor] *)
Definition constructor : js (State Manager) unit :=
  update_this (set_posts []);;
  update_this (set_currentView "list");;
  update_this (set_currentPostId None);;
  init.

(** [new BlogManager()] in a browser [b]. *)
Definition new (b : Browser) : completion (State Manager) unit :=
  constructor {| this := {| posts := []; currentView := ""; currentPostId := None;
                            postsList := []; emptyState := false;
                            totalPosts := 0; totalWords := 0;
                            postViewContainer := None |};
                 browser := b |}.

(** [createPost(title, content, tags, excerpt)] *)
Definition createPost (title content : string) (tags : list string) (excerpt : string)
  : js (State Manager) (value Post) :=
  t_id ← now env;
  t_created ← now env;
  let newPost := {| id := toString t_id;
                    title := title;
                    content := content;
                    tags := tags;
                    excerpt := excerpt;
                    createdAt := toISOString env t_created |} in
  update_this (fun m => set_posts (newPost :: posts m) m);;
  savePosts;;
  renderPostsList None;;
  updateStats;;
  showPostsList;;
  showNotification "Post created!" "success";;
  ret Undefined.

(** [updatePost(id, title, content, tags, excerpt)] *)
Definition updatePost (i title content : string) (tags : list string) (excerpt : string)
  : js (State Manager) (value Post) :=
  s ← get;
  match findIndex (has_id i) (posts (this s)) with
  | Some idx =>
      update_this (fun m =>
        match posts m !! idx with
        | Some old =>
            set_posts (<[idx := {| id := id old;
                                   title := title;
                                   content := content;
                                   tags := tags;
                                   excerpt := excerpt;
                                   createdAt := createdAt old |}]> (posts m)) m
        | None => m
        end);;
      savePosts;;
      renderPostsList None;;
      updateStats;;
      showPostsList;;
      showNotification "Post updated!" "success";;
      ret Undefined
  | None => ret Undefined
  end.

(** [deletePost(id)] *)
Definition deletePost (i : string) : js (State Manager) (value Post) :=
  s ← get;
  match findIndex (has_id i) (posts (this s)) with
  | Some idx =>
      let shown := match posts (this s) !! idx with
                   | Some p => title p
                   | None => ""
                   end in
      if confirm env ("Delete " ++ dquote ++ shown ++ dquote ++ "?")
      then
        update_this (fun m => set_posts (delete idx (posts m)) m);;
        savePosts;;
        renderPostsList None;;
        updateStats;;
        showPostsList;;
        showNotification "Post deleted!" "warning";;
        ret Undefined
      else ret Undefined
  | None => ret Undefined
  end.

(** The tags array [handleFormSubmission] builds from the tags input. *)
Definition tagsArr (postTags : string) : list string :=
  let tags := trim postTags in
  if truthy tags
  then List.filter truthy (map trim (split "," tags))
  else [].

(** [handleFormSubmission], given the values of the title, content and
    tags inputs of the form. *)
Definition handleFormSubmission (postTitle postContent postTags : string)
  : js (State Manager) (value Post) :=
  let title := trim postTitle in
  let content := trim postContent in
  let tagsArr := tagsArr postTags in
  let excerpt := generateExcerpt content None in
  if negb (truthy title) || negb (truthy content)
  then showNotification "Title and content are required!" "warning";; ret Undefined
  else
    s ← get;
    if String.eqb (currentView (this s)) "edit"
       && match currentPostId (this s) with Some i => truthy i | None => false end
    then updatePost (default "" (currentPostId (this s))) title content tagsArr excerpt;;
         ret Undefined
    else createPost title content tagsArr excerpt;; ret Undefined.

End WithPlatform.

End BlogManager.

(** ** Notions the statements use *)

Module Spec.
Import Js.

(** No element of [l] carries the identifier [i]. *)
Definition absent {A} (get_id : A -> string) (i : string) (l : list A) : Prop :=
  forall x, x ∈ l -> get_id x <> i.

(** [x], at index [k], is the first element of [l] that carries the
    identifier [i]. *)
Definition first_with_id {A} (get_id : A -> string) (i : string)
    (l : list A) (k : nat) (x : A) : Prop :=
  l !! k = Some x /\ get_id x = i /\
  forall j y, j < k -> l !! j = Some y -> get_id y <> i.





(** The comma-separated input split into trimmed non-empty strings. *)
Definition tags_of_input (input : string) : list string :=
  List.filter (fun t => negb (String.eqb t "")) (map trim (split "," input)).

(** The excerpt of a content: the content itself up to 150 characters,
    beyond that its first 150 characters followed by three dots. *)
Definition excerpt_of (content excerpt : string) : Prop :=
  (String.length content <= 150 /\ excerpt = content) \/
  (150 < String.length content /\
   exists pre rest, content = pre ++ rest /\ String.length pre = 150 /\
                    excerpt = pre ++ "...").

(** The prompt [deletePost] shows for a post. *)
Definition deletePost_prompt (old : BlogManager.Post) : string :=
  "Delete " ++ dquote ++ BlogManager.title old ++ dquote ++ "?".

(** The prompt [clearCompleted] shows for [n] completed todos. *)
Definition clearCompleted_prompt (n : nat) : string :=
  "Delete " ++ toString (N.of_nat n) ++ " completed todo(s)?".

(** A white-space code unit, of those below 256: TAB, LF, VT, FF, CR
    (9 to 13), the space (32) or the no-break space (160). *)
Definition white (c : ascii) : Prop :=
  let n := nat_of_ascii c in
  9 <= n <= 13 \/ n = 32 \/ n = 160.

(** A text with something in it that neither begins nor ends with white
    space. *)
Definition trimmed (s : string) : Prop :=
  s <> "" /\
  (forall c rest, s = String c rest -> ~ white c) /\
  (forall front c, s = front ++ String c "" -> ~ white c).

(** A string all of whose code units are white space (the empty string
    included). *)
Definition blank (s : string) : Prop :=
  forall c, c ∈ list_ascii_of_string s -> isWhiteSpace c = true.

Definition nonempty (s : string) : Prop := s <> "".

(** Apply [f] to the last element of a list. *)
Fixpoint map_last {A} (f : A -> A) (l : list A) : list A :=
  match l with
  | [] => []
  | [x] => [f x]
  | x :: l' => x :: map_last f l'
  end.

End Spec.

(** ** Concrete platforms and states for the examples *)

Module Sample.
Import Js.

(** A browser with an empty storage area that accepts writes. *)
Definition browser0 : Browser :=
  {| localStorage := ∅; storageFull := false; clockReads := 0; notification := [] |}.

(** The same with a storage area that refuses every write. *)
Definition browser_full : Browser :=
  {| localStorage := ∅; storageFull := true; clockReads := 0; notification := [] |}.

(** A browser whose storage holds text that is not JSON under both keys. *)
Definition browser_malformed : Browser :=
  {| localStorage := {[ "todos" := "{oops"; "blog-posts" := "{oops" ]};
     storageFull := false; clockReads := 0; notification := [] |}.

(** [JSON.stringify] of a string without characters that need an escape. *)
Definition quoted (s : string) : string := dquote ++ s ++ dquote.

Definition key (name : string) : string := quoted name ++ ":".

Fixpoint join (sep : string) (l : list string) : string :=
  match l with
  | [] => ""
  | [x] => x
  | x :: l' => x ++ sep ++ join sep l'
  end.

Definition array (items : list string) : string := "[" ++ join "," items ++ "]".

Definition todo_json (t : TodoManager.Todo) : string :=
  "{" ++ key "id" ++ quoted (TodoManager.id t) ++ ","
      ++ key "text" ++ quoted (TodoManager.text t) ++ ","
      ++ key "completed" ++ (if TodoManager.completed t then "true" else "false") ++ ","
      ++ key "priority" ++ quoted (TodoManager.priority t) ++ ","
      ++ key "dueDate" ++ quoted (TodoManager.dueDate t) ++ ","
      ++ key "createdAt" ++ quoted (TodoManager.createdAt t) ++ "}".

Definition post_json (p : BlogManager.Post) : string :=
  "{" ++ key "id" ++ quoted (BlogManager.id p) ++ ","
      ++ key "title" ++ quoted (BlogManager.title p) ++ ","
      ++ key "content" ++ quoted (BlogManager.content p) ++ ","
      ++ key "tags" ++ array (map quoted (BlogManager.tags p)) ++ ","
      ++ key "excerpt" ++ quoted (BlogManager.excerpt p) ++ ","
      ++ key "createdAt" ++ quoted (BlogManager.createdAt p) ++ "}".

(** A platform whose clock reads 1700000000000 ms (2023-11-14T22:13:20Z)
    at every reading, that is, all calls fall within one millisecond.
    [stringify] is its [JSON.stringify]; its [JSON.parse] reads the empty
    array and rejects any other text (it is only given the empty array
    and malformed text).  The user answers every prompt with [answer]. *)
Definition platform {T} (stringify : T -> string) (answer : bool) : Platform T :=
  {| Date_now := fun _ => 1700000000000%N;
     toISOString := fun _ => "2023-11-14T22:13:20.000Z";
     JSON_stringify := fun l => array (map stringify l);
     JSON_parse := fun raw => if String.eqb raw "[]" then Some [] else None;
     confirm := fun _ => answer |}.

Definition todo_platform : bool -> Platform TodoManager.Todo := platform todo_json.
Definition blog_platform : bool -> Platform BlogManager.Post := platform post_json.

Definition todo_state (l : list TodoManager.Todo) (b : Browser) : State TodoManager.Manager :=
  {| this := {| TodoManager.todos := l; TodoManager.currentFilter := "all";
                TodoManager.todoList := l;
                TodoManager.emptyState := (length l =? 0)%nat;
                TodoManager.totalTasks := length l;
                TodoManager.completedTasks :=
                  length (List.filter (fun t => TodoManager.completed t) l) |};
     browser := b |}.

Definition blog_state (l : list BlogManager.Post) (view : string)
    (current : option string) (b : Browser) : State BlogManager.Manager :=
  {| this := {| BlogManager.posts := l; BlogManager.currentView := view;
                BlogManager.currentPostId := current;
                BlogManager.postsList := l;
                BlogManager.emptyState := (length l =? 0)%nat;
                BlogManager.totalPosts := length l;
                BlogManager.totalWords := 0;
                BlogManager.postViewContainer := None |};
     browser := b |}.

Definition milk : TodoManager.Todo :=
  {| TodoManager.id := "1700000000000"; TodoManager.text := "Buy milk";
     TodoManager.completed := false; TodoManager.priority := "high";
     TodoManager.dueDate := "2024-01-01";
     TodoManager.createdAt := "2023-11-14T22:13:20.000Z" |}.

Definition done_task : TodoManager.Todo :=
  {| TodoManager.id := "1699999999000"; TodoManager.text := "Pay rent";
     TodoManager.completed := true; TodoManager.priority := "medium";
     TodoManager.dueDate := "";
     TodoManager.createdAt := "2023-11-14T22:13:19.000Z" |}.

(** Two todos created within the same millisecond. *)
Definition twin_a : TodoManager.Todo :=
  {| TodoManager.id := "1700000000000"; TodoManager.text := "a";
     TodoManager.completed := false; TodoManager.priority := "medium";
     TodoManager.dueDate := "";
     TodoManager.createdAt := "2023-11-14T22:13:20.000Z" |}.

Definition twin_b : TodoManager.Todo :=
  {| TodoManager.id := "1700000000000"; TodoManager.text := "b";
     TodoManager.completed := false; TodoManager.priority := "medium";
     TodoManager.dueDate := "";
     TodoManager.createdAt := "2023-11-14T22:13:20.000Z" |}.

Definition hello : BlogManager.Post :=
  {| BlogManager.id := "1699999999000"; BlogManager.title := "Hi";
     BlogManager.content := "This is a long body text";
     BlogManager.tags := ["tag1"; "tag2"];
     BlogManager.excerpt := "This is a long body text";
     BlogManager.createdAt := "2023-11-14T22:13:19.000Z" |}.

End Sample.

(** ** The utility library *)

Module Utils.
Import Js.

(** [localStorage.removeItem(key)] and [localStorage.clear()]; neither
    throws. *)
Definition localStorage_removeItem {M} (key : string) : js (State M) unit :=
  fun s =>
    let b := browser s in
    Normal tt {| this := this s;
                 browser := {| localStorage := delete key (localStorage b);
                               storageFull := storageFull b;
                               clockReads := clockReads b;
                               notification := notification b |} |}.

Definition localStorage_clear {M} : js (State M) unit :=
  fun s =>
    let b := browser s in
    Normal tt {| this := this s;
                 browser := {| localStorage := ∅;
                               storageFull := storageFull b;
                               clockReads := clockReads b;
                               notification := notification b |} |}.

(** [StorageHelper], for data that is an array of records of type [T];
    [None] stands for the default value [null]. *)
Module StorageHelper.
Section WithPlatform.
Context {T M : Type} (env : Platform T).

(** [save(key, data)] *)
Definition save (key : string) (data : list T) : js (State M) bool :=
  try_catch
    (let serializedData := JSON_stringify env data in
     localStorage_setItem key serializedData;;
     ret true)
    (fun error => ret false).

(** [load(key, defaultValue = null)] *)
Definition load (key : string) (defaultValue : option (list T))
  : js (State M) (option (list T)) :=
  try_catch
    (serializedData ← localStorage_getItem key;
     match serializedData with
     | Some raw =>
         if truthy raw
         then match JSON_parse env raw with
              | Some v => ret (Some v)
              | None => throw SyntaxError
              end
         else ret defaultValue
     | None => ret defaultValue
     end)
    (fun error => ret defaultValue).

(** [remove(key)] *)
Definition remove (key : string) : js (State M) bool :=
  try_catch (localStorage_removeItem key;; ret true) (fun error => ret false).

(** [clear()] *)
Definition clear : js (State M) bool :=
  try_catch (localStorage_clear;; ret true) (fun error => ret false).

End WithPlatform.
End StorageHelper.

Module ValidationUtils.

(** [isEmpty(str)] *)
Definition isEmpty (str : string) : bool :=
  negb (truthy str) || (String.length (trim str) =? 0)%nat.

End ValidationUtils.

Module StringUtils.

(** [truncate(str, length, suffix = '...')]; [substring] takes a negative
    end as 0, which is what the subtraction on [nat] gives. *)
Definition truncate (str : string) (length : nat) (suffix : option string) : string :=
  let suffix := default "..." suffix in
  if negb (truthy str) || (String.length str <=? length)%nat then str
  else substring0 (length - String.length suffix) str ++ suffix.

(** [wordCount(str)] *)
Definition wordCount (str : string) : nat :=
  if negb (truthy str) then 0
  else length (List.filter (fun word => (0 <? String.length word)%nat)
                 (splitWs false (trim str))).

End StringUtils.

Module ArrayUtils.

(** The [filter] callback of [unique(array, key)] run over the array:
    [seen] is the set of values met so far, [key] reads [item[key]]. *)
Fixpoint unique_go {A} (key : A -> string) (seen : gset string) (array : list A)
  : list A :=
  match array with
  | [] => []
  | item :: rest =>
      let value := key item in
      if decide (value ∈ seen) then unique_go key seen rest
      else item :: unique_go key ({[value]} ∪ seen) rest
  end.


(** [unique(array)] without a key, on an array of strings: the elements
    of [new Set(array)] in insertion order. *)
Definition unique_values (array : list string) : list string :=
  unique_go (fun x => x) ∅ array.

End ArrayUtils.

End Utils.

(** ** Sequences of commands *)

(** The calls the page makes on the todo manager. *)
Module TodoCommands.
Import Js TodoManager.

Inductive Command : Type :=
  | AddTodo (text : string) (priority dueDate : option string)
  | ToggleTodo (i : string)
  | DeleteTodo (i : string)
  | EditTodo (i newText : string)
  | SetFilter (filter : string)
  | ClearCompleted
  | SubmitForm (todoInput prioritySelect dueDateInput : string)
  | ClickDelete (todoId : string).

Definition exec (env : Platform Todo) (c : Command) : js (State Manager) unit :=
  match c with
  | AddTodo text priority dueDate => addTodo env text priority dueDate;; ret tt
  | ToggleTodo i => toggleTodo env i;; ret tt
  | DeleteTodo i => deleteTodo env i;; ret tt
  | EditTodo i newText => editTodo env i newText;; ret tt
  | SetFilter filter => setFilter filter;; ret tt
  | ClearCompleted => clearCompleted env;; ret tt
  | SubmitForm a b c => todoForm_submit env a b c
  | ClickDelete i => deleteBtn_click env i
  end.

(** One command after the other; an exception ends the sequence. *)
Fixpoint exec_all (env : Platform Todo) (cs : list Command) : js (State Manager) unit :=
  match cs with
  | [] => ret tt
  | c :: cs' => exec env c;; exec_all env cs'
  end.

(** The page shows what the manager holds: the list is the filtered
    collection, the empty indicator is on exactly when that list is
    empty, and the counters are the sizes of the collection and of its
    completed part. *)
Definition page_ok (m : Manager) : Prop :=
  todoList m = getFilteredTodos m /\
  emptyState m = (length (todoList m) =? 0)%nat /\
  totalTasks m = length (todos m) /\
  completedTasks m = length (List.filter (fun t => completed t) (todos m)).

(** The storage holds the serialised collection. *)
Definition in_sync (env : Platform Todo) (s : State Manager) : Prop :=
  localStorage (browser s) !! "todos" = Some (JSON_stringify env (todos (this s))).

(** Commands that put a new record into the collection. *)
Definition creates (c : Command) : bool :=
  match c with
  | AddTodo _ _ _ | SubmitForm _ _ _ => true
  | _ => false
  end.

(** A direct call of [addTodo], which takes its text as it comes. *)
Definition is_addTodo (c : Command) : bool :=
  match c with
  | AddTodo _ _ _ => true
  | _ => false
  end.

(** A text that is not empty and has no white space at either end. *)
Definition text_ok (t : Todo) : Prop := Spec.trimmed (text t).

End TodoCommands.

(** The calls the page makes on the blog manager. *)
Module BlogCommands.
Import Js BlogManager.

Inductive Command : Type :=
  | CreatePost (title content : string) (tags : list string) (excerpt : string)
  | UpdatePost (i title content : string) (tags : list string) (excerpt : string)
  | DeletePost (i : string)
  | SubmitForm (postTitle postContent postTags : string)
  | ShowPostsList
  | ShowCreateForm
  | ShowEditForm (i : string)
  | ShowPostView (i : string)
  | Search (searchQuery : string).

Definition exec (env : Platform Post) (c : Command) : js (State Manager) unit :=
  match c with
  | CreatePost title content tags excerpt => createPost env title content tags excerpt;; ret tt
  | UpdatePost i title content tags excerpt => updatePost env i title content tags excerpt;; ret tt
  | DeletePost i => deletePost env i;; ret tt
  | SubmitForm a b c => handleFormSubmission env a b c;; ret tt
  | ShowPostsList => showPostsList
  | ShowCreateForm => showCreateForm
  | ShowEditForm i => showEditForm i
  | ShowPostView i => showPostView i
  | Search searchQuery => renderPostsList (Some (trim searchQuery))
  end.

Fixpoint exec_all (env : Platform Post) (cs : list Command) : js (State Manager) unit :=
  match cs with
  | [] => ret tt
  | c :: cs' => exec env c;; exec_all env cs'
  end.

(** The counters are the number of posts and the words of their
    contents, the cards shown are posts of the collection in its order,
    and the empty indicator is on exactly when no card is shown. *)
Definition page_ok (m : Manager) : Prop :=
  totalPosts m = length (posts m) /\
  totalWords m = fold_left (fun sum post => sum + countWords (content post)) (posts m) 0 /\
  postsList m `sublist_of` posts m /\
  emptyState m = (length (postsList m) =? 0)%nat.

(** The storage holds the serialised collection. *)
Definition in_sync (env : Platform Post) (s : State Manager) : Prop :=
  localStorage (browser s) !! "blog-posts" = Some (JSON_stringify env (posts (this s))).

(** Commands that put a new record into the collection. *)
Definition creates (c : Command) : bool :=
  match c with
  | CreatePost _ _ _ _ | SubmitForm _ _ _ => true
  | _ => false
  end.

(** The view is one of the four the manager knows, no post has the empty
    identifier, and in the edit view the remembered identifier is not
    empty and is that of a post of the collection. *)
Definition view_ok (m : Manager) : Prop :=
  currentView m ∈ ["list"; "create"; "edit"; "view"] /\
  Forall (fun p => id p <> "") (posts m) /\
  (currentView m = "edit" ->
   exists i p, currentPostId m = Some i /\ i <> "" /\ p ∈ posts m /\ id p = i).

End BlogCommands.

(** A platform like [Sample.platform] whose [JSON.parse] reads back the
    serialised form of one given collection (and the empty array). *)
Module Reload.
Import Js.

Definition platform {T} (stringify : T -> string) (known : list T) (answer : bool)
  : Platform T :=
  {| Date_now := fun _ => 1700000000000%N;
     toISOString := fun _ => "2023-11-14T22:13:20.000Z";
     JSON_stringify := fun l => Sample.array (map stringify l);
     JSON_parse := fun raw =>
       if String.eqb raw (Sample.array (map stringify known)) then Some known
       else if String.eqb raw "[]" then Some []
       else None;
     confirm := fun _ => answer |}.

(** A browser whose storage holds [v] under [key]. *)
Definition browser_with (key v : string) : Browser :=
  {| localStorage := {[ key := v ]}; storageFull := false;
     clockReads := 0; notification := [] |}.

End Reload.

(** ** Unfolding the operations *)

Create HintDb js_ops.
#[global] Hint Unfold
  TodoManager.addTodo TodoManager.toggleTodo TodoManager.deleteTodo
  TodoManager.editTodo TodoManager.setFilter TodoManager.clearCompleted
  TodoManager.saveTodos TodoManager.loadTodos TodoManager.render
  TodoManager.updateStats TodoManager.todoForm_submit
  TodoManager.deleteBtn_click TodoManager.init TodoManager.constructor
  TodoManager.new
  BlogManager.createPost BlogManager.updatePost BlogManager.deletePost
  BlogManager.savePosts BlogManager.loadPosts BlogManager.renderPostsList
  BlogManager.updateStats BlogManager.showPostsList
  BlogManager.handleFormSubmission BlogManager.init BlogManager.constructor
  BlogManager.new : js_ops.

Ltac js_monad :=
  unfold mbind, js_mbind, Js.bind, Js.ret, Js.throw, Js.try_catch, Js.get,
    Js.modify, Js.update_this, Js.localStorage_setItem,
    Js.localStorage_getItem, Js.now, Js.showNotification in *.

Ltac js_run := autounfold with js_ops in *; js_monad; cbn in *.

(** ** Sanity checks of the string functions *)

Example trim_ex : Js.trim "  tag1 " = "tag1". Proof. reflexivity. Qed.
Example split_ex : Js.split "," "a,,b" = ["a"; ""; "b"]. Proof. reflexivity. Qed.
Example toString_ex : Js.toString 1700000000000 = "1700000000000". Proof. reflexivity. Qed.
Example includes_ex : Js.includes "hello" "ell" = true. Proof. reflexivity. Qed.
Example includes_ex2 : Js.includes "hello" "" = true. Proof. reflexivity. Qed.
Example lower_ex : Js.toLowerCase "HeLLo" = "hello". Proof. reflexivity. Qed.
Example splitWs_ex : Js.splitWs false "a  b c" = ["a"; "b"; "c"]. Proof. reflexivity. Qed.
Example excerpt_ex : BlogManager.generateExcerpt "abcdefgh" (Some 5) = "abcde...".
Proof. reflexivity. Qed.
Example tagsArr_ex : BlogManager.tagsArr " tag1, tag2 ,, " = ["tag1"; "tag2"].
Proof. reflexivity. Qed.
Example countWords_ex : BlogManager.countWords " two  words " = 2. Proof. reflexivity. Qed.


(** ** Facts about the string functions *)

Section StringFacts.
Import Js Spec.

Lemma truthy_true s : truthy s = true <-> s <> "".
Proof. destruct s; cbn; split; intros; congruence. Qed.

Lemma truthy_false s : truthy s = false <-> s = "".
Proof. destruct s; cbn; split; intros; congruence. Qed.

Lemma truthy_negb_eqb s : truthy s = negb (String.eqb s "").
Proof. by destruct s. Qed.

Lemma trimEnd_cons_nonws c s :
  isWhiteSpace c = false -> trimEnd (String c s) = String c (trimEnd s).
Proof. intros Hc. cbn. rewrite Hc. by destruct (trimEnd s). Qed.

Lemma trimEnd_cons_nonempty c s :
  trimEnd s <> "" -> trimEnd (String c s) = String c (trimEnd s).
Proof. intros Hs. cbn. by destruct (trimEnd s). Qed.

Lemma trimEnd_cons_ws c s :
  isWhiteSpace c = true -> trimEnd s = "" -> trimEnd (String c s) = "".
Proof. intros Hc Hs. cbn. by rewrite Hs, Hc. Qed.

Lemma trimEnd_idemp s : trimEnd (trimEnd s) = trimEnd s.
Proof.
  induction s as [|c s IH]; [done|].
  destruct (string_dec (trimEnd s) "") as [E|E].
  - destruct (isWhiteSpace c) eqn:Hc.
    + by rewrite trimEnd_cons_ws.
    + rewrite !trimEnd_cons_nonws, ?E; by rewrite ?E.
  - rewrite (trimEnd_cons_nonempty c s E).
    rewrite trimEnd_cons_nonempty; by rewrite IH.
Qed.

Lemma trimStart_trimEnd s : trimStart (trimEnd s) = trimEnd (trimStart s).
Proof.
  induction s as [|c s IH]; [done|].
  destruct (isWhiteSpace c) eqn:Hc.
  - cbn [trimStart]. rewrite Hc, <- IH.
    destruct (string_dec (trimEnd s) "") as [E|E].
    + by rewrite trimEnd_cons_ws, E.
    + rewrite trimEnd_cons_nonempty by done. cbn. by rewrite Hc.
  - cbn [trimStart]. rewrite Hc, trimEnd_cons_nonws by done.
    cbn. by rewrite Hc.
Qed.

Lemma trim_trimEnd s : trim (trimEnd s) = trim s.
Proof. unfold trim. by rewrite trimStart_trimEnd, trimEnd_idemp. Qed.

Lemma trim_cons_ws c s : isWhiteSpace c = true -> trim (String c s) = trim s.
Proof. intros Hc. unfold trim. cbn. by rewrite Hc. Qed.

Lemma split_nonempty sep s : split sep s <> [].
Proof.
  destruct s as [|c s]; cbn; [done|].
  destruct (Ascii.eqb c sep); [done|]. by destruct (split sep s).
Qed.

Lemma split_singleton sep s h : split sep s = [h] -> h = s.
Proof.
  revert h. induction s as [|c s IH]; intros h; cbn.
  - congruence.
  - destruct (Ascii.eqb c sep).
    + intros [= <- E]. by destruct (split_nonempty sep s).
    + destruct (split sep s) as [|h' t] eqn:E.
      { by destruct (split_nonempty sep s). }
      intros [= <- ->]. by rewrite (IH h').
Qed.

Lemma map_last_cons {A} (f : A -> A) x l :
  l <> [] -> map_last f (x :: l) = x :: map_last f l.
Proof. by destruct l. Qed.

Lemma split_trimEnd sep s :
  isWhiteSpace sep = false ->
  split sep (trimEnd s) = map_last trimEnd (split sep s).
Proof.
  intros Hsep. induction s as [|c s IH]; [done|].
  destruct (Ascii.eqb c sep) eqn:Ec.
  - apply Ascii.eqb_eq in Ec as ->.
    rewrite trimEnd_cons_nonws by done. cbn [split].
    rewrite Ascii.eqb_refl, IH.
    by rewrite map_last_cons by apply split_nonempty.
  - destruct (string_dec (trimEnd s) "") as [E|E].
    + assert (split sep s = [s]) as Hs.
      { rewrite E in IH. cbn in IH.
        destruct (split sep s) as [|h [|h' t]] eqn:Es.
        - by destruct (split_nonempty sep s).
        - by rewrite (split_singleton _ _ _ Es).
        - rewrite map_last_cons in IH by done.
          injection IH as _ IH. destruct t; discriminate. }
      cbn [split]. rewrite Ec, Hs. cbn [map_last].
      destruct (isWhiteSpace c) eqn:Hc.
      * by rewrite trimEnd_cons_ws.
      * rewrite trimEnd_cons_nonws, E by done. cbn. by rewrite Ec.
    + rewrite trimEnd_cons_nonempty by done. cbn [split]. rewrite Ec, IH.
      destruct (split sep s) as [|h [|h' t]] eqn:Es.
      * by destruct (split_nonempty sep s).
      * cbn [map_last]. apply split_singleton in Es as ->.
        by rewrite trimEnd_cons_nonempty.
      * rewrite (map_last_cons _ h) by done.
        by rewrite (map_last_cons _ (String c h)).
Qed.

Lemma map_trim_map_last l : map trim (map_last trimEnd l) = map trim l.
Proof.
  induction l as [|x [|y l] IH]; [done| |].
  - cbn. by rewrite trim_trimEnd.
  - rewrite map_last_cons by done. cbn [map]. by rewrite IH.
Qed.

Lemma map_trim_split_trimStart sep s :
  isWhiteSpace sep = false ->
  map trim (split sep (trimStart s)) = map trim (split sep s).
Proof.
  intros Hsep. induction s as [|c s IH]; [done|].
  cbn [trimStart]. destruct (isWhiteSpace c) eqn:Hc; [|done].
  rewrite IH. cbn [split].
  destruct (Ascii.eqb c sep) eqn:Ec.
  { apply Ascii.eqb_eq in Ec. congruence. }
  destruct (split sep s) as [|h t] eqn:Es.
  - by destruct (split_nonempty sep s).
  - cbn [map]. f_equal. by rewrite trim_cons_ws.
Qed.

(** Trimming the whole input first does not change the trimmed pieces. *)
Lemma map_trim_split_trim sep s :
  isWhiteSpace sep = false ->
  map trim (split sep (trim s)) = map trim (split sep s).
Proof.
  intros Hsep. unfold trim.
  rewrite split_trimEnd, map_trim_map_last by done.
  by apply map_trim_split_trimStart.
Qed.

Lemma tagsArr_tags_of_input input :
  BlogManager.tagsArr input = tags_of_input input.
Proof.
  unfold BlogManager.tagsArr, tags_of_input.
  rewrite <- (map_trim_split_trim "," input) by done.
  destruct (truthy (trim input)) eqn:E.
  - apply filter_ext. intros t. apply truthy_negb_eqb.
  - apply truthy_false in E. by rewrite E.
Qed.

End StringFacts.

Section SearchFacts.
Import Js Spec.

Lemma append_cons c x y : String c x ++ y = String c (x ++ y).
Proof. reflexivity. Qed.



Lemma substring0_prefix n s :
  n <= String.length s ->
  exists rest, s = substring0 n s ++ rest /\ String.length (substring0 n s) = n.
Proof.
  unfold substring0. revert s. induction n as [|n IH]; intros s Hn.
  - exists s. by destruct s.
  - destruct s as [|c s]; cbn in Hn; [lia|].
    destruct (IH s) as (rest & E & Hl); [lia|].
    exists rest. simpl. by rewrite append_cons, <- E, Hl.
Qed.

Lemma generateExcerpt_spec content :
  excerpt_of content (BlogManager.generateExcerpt content None).
Proof.
  unfold excerpt_of, BlogManager.generateExcerpt. cbn [default].
  destruct content as [|c content]; [left; cbn; split; [lia | done]|].
  cbn [truthy negb].
  destruct (150 <? String.length (String c content))%nat eqn:E.
  - apply Nat.ltb_lt in E. right. split; [done|].
    destruct (substring0_prefix 150 (String c content)) as (rest & E1 & E2); [lia|].
    by exists (substring0 150 (String c content)), rest.
  - apply Nat.ltb_ge in E. by left.
Qed.

Lemma findIndex_None {A} (p : A -> bool) (l : list A) :
  findIndex p l = None <-> forall x, x ∈ l -> p x = false.
Proof.
  induction l as [|a l IH]; cbn.
  - split; [intros _ x Hx; by apply elem_of_nil in Hx | done].
  - destruct (p a) eqn:Ea.
    + split; [done | intros H; specialize (H a); rewrite Ea in H].
      discriminate H. by left.
    + rewrite fmap_None, IH. split.
      * intros H x [->|Hx]%elem_of_cons; auto.
      * intros H x Hx. apply H. by right.
Qed.

Lemma findIndex_Some {A} (p : A -> bool) (l : list A) (k : nat) :
  findIndex p l = Some k <->
  exists x, l !! k = Some x /\ p x = true /\
            forall j y, j < k -> l !! j = Some y -> p y = false.
Proof.
  revert k. induction l as [|a l IH]; intros k; cbn.
  - split; [done | by intros (x & ? & _)].
  - destruct (p a) eqn:Ea.
    + split.
      * intros [= <-]. exists a. repeat split; [done | intros; lia].
      * intros (x & Hk & Hx & Hlt). destruct k as [|k]; [done|].
        specialize (Hlt 0 a). rewrite Hlt in Ea; [done | lia | done].
    + rewrite fmap_Some. split.
      * intros (k' & Hk' & ->). apply IH in Hk' as (x & ? & ? & Hlt).
        exists x. repeat split; [done..|].
        intros [|j] y Hj; cbn; [congruence|]. apply Hlt. lia.
      * intros (x & Hk & Hx & Hlt). destruct k as [|k].
        { cbn in Hk. congruence. }
        exists k. split; [|done]. apply IH. exists x. repeat split; [done..|].
        intros j y Hj Hy. apply (Hlt (S j)); [lia | done].
Qed.

(** What [find] returns is the element at the index [findIndex] returns:
    updating the object [find] gave is updating the list at that index. *)
Lemma find_findIndex {A} (p : A -> bool) (l : list A) :
  find p l = k ← findIndex p l; l !! k.
Proof.
  unfold find. induction l as [|a l IH]; [done|]. cbn.
  destruct (p a); [done|]. rewrite IH. by destruct (findIndex p l).
Qed.

Section ById.
Context {A : Type} (get_id : A -> string).

Let has (i : string) (x : A) : bool := String.eqb (get_id x) i.

Lemma findIndex_absent i l : absent get_id i l -> findIndex (has i) l = None.
Proof.
  intros H. apply findIndex_None. intros x Hx.
  apply String.eqb_neq. by apply H.
Qed.

Lemma findIndex_first i l k x :
  first_with_id get_id i l k x -> findIndex (has i) l = Some k.
Proof.
  intros (Hk & Hi & Hlt). apply findIndex_Some. exists x.
  repeat split; [done | by apply String.eqb_eq |].
  intros j y Hj Hy. apply String.eqb_neq. by eapply Hlt.
Qed.

Lemma findIndex_first_inv i l k :
  findIndex (has i) l = Some k -> exists x, first_with_id get_id i l k x.
Proof.
  intros (x & Hk & Hx & Hlt)%findIndex_Some. exists x.
  repeat split; [done | by apply String.eqb_eq |].
  intros j y Hj Hy. apply String.eqb_neq. by eapply Hlt.
Qed.

(** Once the only record with an identifier is removed, none carries it. *)
Lemma absent_after_delete i l k x :
  NoDup (map get_id l) -> l !! k = Some x -> get_id x = i ->
  absent get_id i (delete k l).
Proof.
  intros Hnd Hk Hi y Hy Hyi.
  apply list_elem_of_lookup in Hy as [j Hj].
  assert (exists j', j' <> k /\ l !! j' = Some y) as (j' & Hne & Hj').
  { destruct (decide (j < k)).
    - exists j. rewrite list_lookup_delete_lt in Hj by done. split; [lia | done].
    - exists (S j). rewrite list_lookup_delete_ge in Hj by lia. split; [lia | done]. }
  apply Hne. change (map get_id l) with (get_id <$> l) in Hnd.
  eapply (NoDup_lookup _ _ _ i Hnd); rewrite list_lookup_fmap.
  - by rewrite Hj'; cbn; rewrite Hyi.
  - by rewrite Hk; cbn; rewrite Hi.
Qed.

End ById.

End SearchFacts.

(** ** What [trim] leaves *)

Section TrimFacts.
Import Js Spec.

Lemma isWhiteSpace_white c : isWhiteSpace c = true <-> white c.
Proof.
  unfold isWhiteSpace, white. cbv zeta.
  rewrite !orb_true_iff, andb_true_iff, !Nat.leb_le, !Nat.eqb_eq. lia.
Qed.

Lemma not_white c : isWhiteSpace c = false -> ~ white c.
Proof. rewrite <- isWhiteSpace_white. congruence. Qed.

Lemma trimStart_first s c rest :
  trimStart s = String c rest -> isWhiteSpace c = false.
Proof.
  induction s as [|a s IH]; cbn; [done|].
  destruct (isWhiteSpace a) eqn:Ha; [done|]. by intros [= <- _].
Qed.

Lemma trimEnd_first c s : isWhiteSpace c = false ->
  exists rest, trimEnd (String c s) = String c rest.
Proof. intros Hc. cbn. rewrite Hc. destruct (trimEnd s); eauto. Qed.

Lemma trimEnd_last s front c :
  trimEnd s = front ++ String c "" -> isWhiteSpace c = false.
Proof.
  revert front. induction s as [|a s IH]; intros front; cbn.
  - by destruct front.
  - destruct (trimEnd s) as [|b u] eqn:E.
    + destruct (isWhiteSpace a) eqn:Ha; [by destruct front|].
      destruct front as [|f front].
      * by intros [= ->].
      * rewrite append_cons. intros [= _ H]. by destruct front.
    + destruct front as [|f front].
      * by intros [= _ ?].
      * rewrite append_cons. intros [= _ H]. by apply (IH front).
Qed.

(** What [trim] returns, when it is not empty, begins and ends with
    something else than white space. *)
Lemma trim_trimmed s : trim s <> "" -> trimmed (trim s).
Proof.
  intros Hne. split; [done|]. split.
  - intros c rest E. apply not_white. unfold trim in E.
    destruct (trimStart s) as [|a t] eqn:Es; [done|].
    pose proof (trimStart_first _ _ _ Es) as Ha.
    destruct (trimEnd_first a t Ha) as [rest' E']. rewrite E' in E.
    by injection E as <- _.
  - intros front c E. apply not_white. by apply (trimEnd_last (trimStart s) front).
Qed.

End TrimFacts.

(** ** Creating records *)

Section Create.
Import Js Spec.

(** [saveTodos] never throws and leaves the manager as it is: a refused
    write only adds a toast of kind danger. *)
Lemma saveTodos_caught (env : Platform TodoManager.Todo) s :
  exists s', TodoManager.saveTodos env s = Normal tt s' /\
    this s' = this s /\
    (storageFull (browser s) = true ->
       localStorage (browser s') = localStorage (browser s) /\
       notification (browser s') =
         (notification (browser s) ++ [("Error saving todos!", "danger")])%list) /\
    (storageFull (browser s) = false ->
       localStorage (browser s') =
         <["todos" := JSON_stringify env (TodoManager.todos (this s))]>
           (localStorage (browser s)) /\
       notification (browser s') = notification (browser s)).
Proof.
  js_run. destruct (storageFull (browser s)); cbn;
    eexists; (split; [reflexivity|]); cbn; repeat split; congruence.
Qed.

(** [loadTodos] never throws and does not touch the state; malformed
    stored text gives the empty collection. *)
Lemma loadTodos_caught (env : Platform TodoManager.Todo) s :
  exists l, TodoManager.loadTodos env s = Normal l s /\
    (forall raw, localStorage (browser s) !! "todos" = Some raw ->
       JSON_parse env raw = None -> l = []).
Proof.
  js_run. destruct (localStorage (browser s) !! "todos") as [raw|] eqn:E; cbn.
  - destruct (truthy raw); cbn.
    + destruct (JSON_parse env raw) as [v|] eqn:Ep; cbn; eexists;
        (split; [reflexivity|]); intros raw' [= <-]; congruence.
    + eexists; split; [reflexivity | done].
  - eexists; split; [reflexivity | done].
Qed.

(** [loadPosts] lets the [SyntaxError] of [JSON.parse] through. *)
Lemma loadPosts_malformed (env : Platform BlogManager.Post) s raw :
  localStorage (browser s) !! "blog-posts" = Some raw ->
  truthy raw = true -> JSON_parse env raw = None ->
  BlogManager.loadPosts env s = Throw SyntaxError s.
Proof. intros E Ht Ep. js_run. by rewrite E, Ht, Ep. Qed.

(** [savePosts] lets the error of a refused write through. *)
Lemma savePosts_refused (env : Platform BlogManager.Post) s :
  storageFull (browser s) = true ->
  BlogManager.savePosts env s = Throw QuotaExceededError s.
Proof. intros E. js_run. by rewrite E. Qed.

End Create.

Section Claims_create.
Import Js Spec Sample.

(** C1, as stated, fails: [addTodo] does not look at its text.  Called
    with the white-space-only text of three spaces on an empty store it
    adds a record and writes the collection to storage. *)
Lemma C1_addTodo_blank_adds :
  trim "   " = "" /\
  TodoManager.todos (this (todo_state [] browser0)) = [] /\
  localStorage (browser (todo_state [] browser0)) !! "todos" = None /\
  exists s',
    TodoManager.addTodo (todo_platform true) "   " None None (todo_state [] browser0)
      = Normal Undefined s' /\
    TodoManager.todos (this s') =
      [ {| TodoManager.id := "1700000000000"; TodoManager.text := "   ";
           TodoManager.completed := false; TodoManager.priority := "medium";
           TodoManager.dueDate := "";
           TodoManager.createdAt := "2023-11-14T22:13:20.000Z" |} ] /\
    is_Some (localStorage (browser s') !! "todos").
Proof.
  repeat split; try reflexivity.
  js_run. eexists. split; [reflexivity|]. split; [reflexivity|].
  cbn. rewrite lookup_insert_eq. by eexists.
Qed.

(** C1, amended: the check for an empty text sits in the form handlers.
    A todo form submitted with an empty or white-space-only text leaves
    the whole state as it is; a post form submitted with an empty or
    white-space-only title or content leaves the manager (its collection
    included) and the storage as they are and only shows a warning. *)
Theorem C1_blank_submission_is_noop
    (envt : Platform TodoManager.Todo) (envb : Platform BlogManager.Post)
    (todoInput prioritySelect dueDateInput : string)
    (st : State TodoManager.Manager)
    (postTitle postContent postTags : string)
    (sb : State BlogManager.Manager) :
  trim todoInput = "" ->
  trim postTitle = "" \/ trim postContent = "" ->
  TodoManager.todoForm_submit envt todoInput prioritySelect dueDateInput st
    = Normal tt st /\
  exists sb',
    BlogManager.handleFormSubmission envb postTitle postContent postTags sb
      = Normal Undefined sb' /\
    this sb' = this sb /\
    localStorage (browser sb') = localStorage (browser sb) /\
    notification (browser sb') =
      (notification (browser sb) ++ [("Title and content are required!", "warning")])%list.
Proof.
  intros Ht Hb. split.
  - unfold TodoManager.todoForm_submit. by rewrite Ht.
  - unfold BlogManager.handleFormSubmission.
    assert (negb (truthy (trim postTitle)) || negb (truthy (trim postContent)) = true) as ->.
    { destruct Hb as [-> | ->]; cbn; [done | by rewrite orb_true_r]. }
    js_run. eexists. split; [reflexivity|]. by cbn.
Qed.

(** Three spaces in the todo form, and a post form whose content is two
    spaces. *)
Lemma C1_blank_submission_witness :
  TodoManager.todoForm_submit (todo_platform true) "   " "medium" ""
      (todo_state [milk] browser0)
    = Normal tt (todo_state [milk] browser0) /\
  exists sb',
    BlogManager.handleFormSubmission (blog_platform true) "Title" "  " "a,b"
        (blog_state [hello] "create" None browser0)
      = Normal Undefined sb' /\
    this sb' = this (blog_state [hello] "create" None browser0) /\
    localStorage (browser sb') = localStorage (browser (blog_state [hello] "create" None browser0)) /\
    notification (browser sb') =
      (notification (browser (blog_state [hello] "create" None browser0))
         ++ [("Title and content are required!", "warning")])%list.
Proof.
  apply (C1_blank_submission_is_noop (todo_platform true) (blog_platform true)
           "   " "medium" "" (todo_state [milk] browser0)
           "Title" "  " "a,b" (blog_state [hello] "create" None browser0)).
  - reflexivity.
  - right. reflexivity.
Defined.

(** C2: the blog manager does not catch storage errors.  With stored
    text that is not JSON, [new BlogManager()] ends in the [SyntaxError]
    of [JSON.parse]; with a storage area that refuses the write,
    [createPost] ends in the error of [setItem], after the new post was
    put into the array and before the list is rendered or a toast
    shown.  On the same inputs the todo manager catches both: it starts
    with an empty collection, and [addTodo] returns after a toast of
    kind danger. *)
Theorem C2_blog_storage_errors_propagate :
  (exists s', BlogManager.new (blog_platform true) browser_malformed
     = Throw SyntaxError s') /\
  (exists s',
     BlogManager.createPost (blog_platform true) "Hi" "Body" [] "Body"
         (blog_state [] "create" None browser_full)
       = Throw QuotaExceededError s' /\
     length (BlogManager.posts (this s')) = 1 /\
     BlogManager.postsList (this s') = [] /\
     notification (browser s') = []) /\
  (exists s', TodoManager.new (todo_platform true) browser_malformed
     = Normal tt s' /\ TodoManager.todos (this s') = []) /\
  (exists s',
     TodoManager.addTodo (todo_platform true) "Hi" None None
         (todo_state [] browser_full)
       = Normal Undefined s' /\
     length (TodoManager.todos (this s')) = 1 /\
     notification (browser s') =
       [("Error saving todos!", "danger"); ("Todo added successfully!", "success")]).
Proof.
  split; [|split; [|split]].
  - unfold BlogManager.new, BlogManager.constructor, BlogManager.init.
    js_monad. cbn -[BlogManager.loadPosts].
    rewrite (loadPosts_malformed _ _ "{oops"); [by eexists | | done..].
    unfold browser_malformed. cbn.
    rewrite lookup_insert_ne by done. by rewrite lookup_singleton_eq.
  - js_run. eexists. by repeat split.
  - unfold TodoManager.new, TodoManager.constructor.
    js_monad. cbn -[TodoManager.loadTodos TodoManager.init].
    destruct (loadTodos_caught (todo_platform true)
                {| this := {| TodoManager.todos := []; TodoManager.currentFilter := "";
                              TodoManager.todoList := []; TodoManager.emptyState := false;
                              TodoManager.totalTasks := 0; TodoManager.completedTasks := 0 |};
                   browser := browser_malformed |}) as (l & -> & Hl).
    rewrite (Hl "{oops"); [| by cbn; rewrite lookup_insert_eq | done].
    js_run. eexists. by split.
  - js_run. eexists. by repeat split.
Qed.




(** Whenever the clock gives the same reading to two calls of [addTodo]
    in a row, the two new records carry the same identifier. *)
Lemma addTodo_twice_same_reading (env : Platform TodoManager.Todo)
    text1 text2 priority1 priority2 dueDate1 dueDate2 s :
  let s1 := final (TodoManager.addTodo env text1 priority1 dueDate1 s) in
  Date_now env (clockReads (browser s)) = Date_now env (clockReads (browser s1)) ->
  exists t2 t1,
    TodoManager.todos
        (this (final (TodoManager.addTodo env text2 priority2 dueDate2 s1)))
      = t2 :: t1 :: TodoManager.todos (this s) /\
    TodoManager.id t2 = TodoManager.id t1.
Proof.
  intros s1 E. subst s1. revert E. js_run.
  destruct (storageFull (browser s)); cbn; intros E;
    eexists; eexists; (split; [reflexivity|]); cbn; by rewrite <- E.
Qed.

(** C4: identifiers are clock readings, so two creations within one
    millisecond get the same identifier.  With a clock that reads
    1700000000000 throughout, two calls of [addTodo] (and of
    [createPost]) leave two records with the identifier 1700000000000,
    and toggling "the" record with that identifier reaches only the
    first of them. *)
Theorem C4_same_millisecond_same_id :
  let s1 := final (TodoManager.addTodo (todo_platform true) "a" None None
                     (todo_state [] browser0)) in
  let s2 := final (TodoManager.addTodo (todo_platform true) "b" None None s1) in
  let s3 := final (TodoManager.toggleTodo (todo_platform true) "1700000000000" s2) in
  let b1 := final (BlogManager.createPost (blog_platform true) "a" "x" [] "x"
                     (blog_state [] "create" None browser0)) in
  let b2 := final (BlogManager.createPost (blog_platform true) "b" "y" [] "y" b1) in
  map TodoManager.id (TodoManager.todos (this s2))
    = ["1700000000000"; "1700000000000"] /\
  map TodoManager.text (TodoManager.todos (this s2)) = ["b"; "a"] /\
  map TodoManager.completed (TodoManager.todos (this s3)) = [true; false] /\
  map BlogManager.id (BlogManager.posts (this b2))
    = ["1700000000000"; "1700000000000"].
Proof. cbv zeta. js_run. by repeat split. Qed.

End Claims_create.

(** ** Updating records *)

Section Claims_update.
Import Js Spec Sample.

Lemma alter_as_insert {A} (f : A -> A) (l : list A) k x :
  l !! k = Some x -> alter f k l = <[k := f x]> l.
Proof.
  revert k. induction l as [|a l IH]; intros [|k] Hk; try done; cbn in *.
  - by injection Hk as ->.
  - f_equal. by apply IH.
Qed.

Lemma editTodo_absent (env : Platform TodoManager.Todo) i newText s :
  absent TodoManager.id i (TodoManager.todos (this s)) ->
  TodoManager.editTodo env i newText s = Normal Undefined s.
Proof.
  intros H. unfold TodoManager.editTodo, TodoManager.has_id. js_monad.
  by rewrite (findIndex_absent TodoManager.id).
Qed.

Lemma editTodo_present (env : Platform TodoManager.Todo) i newText s k old :
  first_with_id TodoManager.id i (TodoManager.todos (this s)) k old ->
  TodoManager.todos (this (final (TodoManager.editTodo env i newText s))) =
    <[k := if truthy (trim newText) then TodoManager.set_text (trim newText) old
           else old]> (TodoManager.todos (this s)).
Proof.
  intros H. pose proof H as (Hk & _).
  unfold TodoManager.editTodo, TodoManager.has_id. js_monad.
  rewrite (findIndex_first TodoManager.id _ _ _ _ H).
  destruct (truthy (trim newText)).
  - js_run. destruct (storageFull (browser s)); cbn; by apply alter_as_insert.
  - cbn. by rewrite list_insert_id.
Qed.

Lemma updatePost_absent (env : Platform BlogManager.Post) i title content tags excerpt s :
  absent BlogManager.id i (BlogManager.posts (this s)) ->
  BlogManager.updatePost env i title content tags excerpt s = Normal Undefined s.
Proof.
  intros H. unfold BlogManager.updatePost, BlogManager.has_id. js_monad.
  by rewrite (findIndex_absent BlogManager.id).
Qed.

Lemma updatePost_present (env : Platform BlogManager.Post) i title content tags excerpt s k old :
  first_with_id BlogManager.id i (BlogManager.posts (this s)) k old ->
  BlogManager.posts (this (final (BlogManager.updatePost env i title content tags excerpt s))) =
    <[k := {| BlogManager.id := BlogManager.id old;
              BlogManager.title := title;
              BlogManager.content := content;
              BlogManager.tags := tags;
              BlogManager.excerpt := excerpt;
              BlogManager.createdAt := BlogManager.createdAt old |}]>
      (BlogManager.posts (this s)).
Proof.
  intros H. pose proof H as (Hk & _).
  unfold BlogManager.updatePost, BlogManager.has_id. js_monad.
  rewrite (findIndex_first BlogManager.id _ _ _ _ H).
  js_run. rewrite Hk. by destruct (storageFull (browser s)).
Qed.

(** C5: an update whose identifier no record carries changes nothing at
    all.  Otherwise it replaces the first record [old] that carries the
    identifier and leaves every other position of the collection as it
    was: [editTodo] puts the trimmed new text into [old] (or nothing when
    that text is empty), [updatePost] puts the given title, content, tags
    and excerpt; the identifier and the creation time of the record stay
    those of [old], as do a todo's flag, priority and due date. *)
Theorem C5_update_keeps_id_and_createdAt
    (envt : Platform TodoManager.Todo) (envb : Platform BlogManager.Post)
    (i newText : string) (st : State TodoManager.Manager)
    (j title content : string) (tags : list string) (excerpt : string)
    (sb : State BlogManager.Manager) :
  (absent TodoManager.id i (TodoManager.todos (this st)) ->
   TodoManager.editTodo envt i newText st = Normal Undefined st) /\
  (forall k old,
     first_with_id TodoManager.id i (TodoManager.todos (this st)) k old ->
     exists new,
       TodoManager.todos (this (final (TodoManager.editTodo envt i newText st)))
         = <[k := new]> (TodoManager.todos (this st)) /\
       TodoManager.id new = TodoManager.id old /\
       TodoManager.createdAt new = TodoManager.createdAt old /\
       TodoManager.completed new = TodoManager.completed old /\
       TodoManager.priority new = TodoManager.priority old /\
       TodoManager.dueDate new = TodoManager.dueDate old /\
       TodoManager.text new =
         if truthy (trim newText) then trim newText else TodoManager.text old) /\
  (absent BlogManager.id j (BlogManager.posts (this sb)) ->
   BlogManager.updatePost envb j title content tags excerpt sb = Normal Undefined sb) /\
  (forall k old,
     first_with_id BlogManager.id j (BlogManager.posts (this sb)) k old ->
     exists new,
       BlogManager.posts
           (this (final (BlogManager.updatePost envb j title content tags excerpt sb)))
         = <[k := new]> (BlogManager.posts (this sb)) /\
       BlogManager.id new = BlogManager.id old /\
       BlogManager.createdAt new = BlogManager.createdAt old /\
       BlogManager.title new = title /\
       BlogManager.content new = content /\
       BlogManager.tags new = tags /\
       BlogManager.excerpt new = excerpt).
Proof.
  split; [apply editTodo_absent|]. split; [|split; [apply updatePost_absent|]].
  - intros k old H. eexists. split; [by apply editTodo_present|].
    by destruct (truthy (trim newText)).
  - intros k old H. eexists. split; [by apply updatePost_present|]. done.
Qed.

Lemma handleFormSubmission_valid (env : Platform BlogManager.Post)
    postTitle postContent postTags s :
  truthy (trim postTitle) = true -> truthy (trim postContent) = true ->
  BlogManager.handleFormSubmission env postTitle postContent postTags s =
    if String.eqb (BlogManager.currentView (this s)) "edit"
       && match BlogManager.currentPostId (this s) with
          | Some i => truthy i
          | None => false
          end
    then (BlogManager.updatePost env (default "" (BlogManager.currentPostId (this s)))
            (trim postTitle) (trim postContent) (BlogManager.tagsArr postTags)
            (BlogManager.generateExcerpt (trim postContent) None);; ret Undefined) s
    else (BlogManager.createPost env
            (trim postTitle) (trim postContent) (BlogManager.tagsArr postTags)
            (BlogManager.generateExcerpt (trim postContent) None);; ret Undefined) s.
Proof.
  intros Ht Hc. unfold BlogManager.handleFormSubmission.
  rewrite Ht, Hc. cbn [negb orb]. js_monad.
  by destruct (_ && _).
Qed.

(** C6: a post stored by a valid form submission holds the trimmed
    content, an excerpt that is that content when it has at most 150
    characters and otherwise its first 150 characters followed by three
    dots, and as tags the comma-separated input split into trimmed
    non-empty strings.  Outside edit mode the post is the new head of
    the collection; in edit mode it replaces the first record that
    carries the current identifier. *)
Theorem C6_form_excerpt_and_tags
    (env : Platform BlogManager.Post)
    (postTitle postContent postTags : string)
    (s : State BlogManager.Manager) :
  truthy (trim postTitle) = true ->
  truthy (trim postContent) = true ->
  let s' := final (BlogManager.handleFormSubmission env postTitle postContent postTags s) in
  let stored (p : BlogManager.Post) :=
    BlogManager.title p = trim postTitle /\
    BlogManager.content p = trim postContent /\
    excerpt_of (BlogManager.content p) (BlogManager.excerpt p) /\
    BlogManager.tags p = tags_of_input postTags in
  (BlogManager.currentView (this s) <> "edit" \/
   BlogManager.currentPostId (this s) = None \/
   BlogManager.currentPostId (this s) = Some "" ->
   exists p, BlogManager.posts (this s') = p :: BlogManager.posts (this s) /\ stored p) /\
  (forall i k old,
     BlogManager.currentView (this s) = "edit" ->
     BlogManager.currentPostId (this s) = Some i -> i <> "" ->
     first_with_id BlogManager.id i (BlogManager.posts (this s)) k old ->
     exists p, BlogManager.posts (this s') = <[k := p]> (BlogManager.posts (this s)) /\
               BlogManager.posts (this s') !! k = Some p /\
               BlogManager.id p = BlogManager.id old /\ stored p).
Proof.
  intros Ht Hc s' stored. subst s'.
  rewrite handleFormSubmission_valid by done. split.
  - intros Hmode.
    assert (String.eqb (BlogManager.currentView (this s)) "edit"
            && match BlogManager.currentPostId (this s) with
               | Some i => truthy i
               | None => false
               end = false) as ->.
    { destruct Hmode as [H | [-> | ->]]; [|by rewrite andb_false_r..].
      apply String.eqb_neq in H. by rewrite H. }
    js_run. eexists. split.
    + destruct (storageFull (browser s)); cbn; reflexivity.
    + subst stored. cbn. repeat split.
      * apply generateExcerpt_spec.
      * apply tagsArr_tags_of_input.
  - intros i k old Hv Hi Hne H.
    rewrite Hv, Hi. change (default "" (Some i)) with i.
    assert (truthy i = true) as -> by by apply truthy_true.
    rewrite String.eqb_refl. cbn [andb].
    pose proof (updatePost_present env i (trim postTitle) (trim postContent)
                  (BlogManager.tagsArr postTags)
                  (BlogManager.generateExcerpt (trim postContent) None) s k old H) as Hu.
    assert (forall c : completion (State BlogManager.Manager) (value BlogManager.Post),
              final ((fun s0 => match c with
                                | Normal _ s1 => Normal (@Undefined BlogManager.Post) s1
                                | Throw e s1 => Throw e s1
                                end) s) = final c) as Hfin by by intros [].
    js_monad. rewrite Hfin.
    eexists. split; [exact Hu|]. destruct H as (Hk & Hid & _).
    split; [rewrite Hu; apply list_lookup_insert_eq; by eapply lookup_lt_Some|].
    subst stored. cbn. repeat split.
    + apply generateExcerpt_spec.
    + apply tagsArr_tags_of_input.
Qed.

(** The scenario of the specification: title Hi, a short body and the
    tags input [tag1, tag2], submitted from the create form. *)
Lemma C6_form_witness :
  exists p,
    BlogManager.posts
        (this (final (BlogManager.handleFormSubmission (blog_platform true)
                        " Hi " "This is a long body text" "tag1, tag2"
                        (blog_state [] "create" None browser0))))
      = [p] /\
    BlogManager.title p = "Hi" /\
    BlogManager.content p = "This is a long body text" /\
    excerpt_of (BlogManager.content p) (BlogManager.excerpt p) /\
    BlogManager.tags p = ["tag1"; "tag2"].
Proof.
  destruct (C6_form_excerpt_and_tags (blog_platform true)
              " Hi " "This is a long body text" "tag1, tag2"
              (blog_state [] "create" None browser0) eq_refl eq_refl) as [H _].
  destruct H as (p & Hp & Ht & Hc & He & Htags); [right; left; reflexivity|].
  exists p. split; [exact Hp|]. split; [exact Ht|]. split; [exact Hc|].
  split; [exact He | exact Htags].
Defined.

End Claims_update.

(** ** Removing records *)

Section Claims_remove.
Import Js Spec Sample.

Lemma deleteTodo_absent (env : Platform TodoManager.Todo) i s :
  absent TodoManager.id i (TodoManager.todos (this s)) ->
  TodoManager.deleteTodo env i s = Normal Undefined s.
Proof.
  intros H. unfold TodoManager.deleteTodo, TodoManager.has_id. js_monad.
  by rewrite (findIndex_absent TodoManager.id).
Qed.

Lemma deleteTodo_present (env : Platform TodoManager.Todo) i s k old :
  first_with_id TodoManager.id i (TodoManager.todos (this s)) k old ->
  exists s',
    TodoManager.deleteTodo env i s = Normal Undefined s' /\
    TodoManager.todos (this s') = delete k (TodoManager.todos (this s)) /\
    localStorage (browser s') !! "todos" =
      if storageFull (browser s) then localStorage (browser s) !! "todos"
      else Some (JSON_stringify env (delete k (TodoManager.todos (this s)))).
Proof.
  intros H. unfold TodoManager.deleteTodo, TodoManager.has_id. js_monad.
  rewrite (findIndex_first TodoManager.id _ _ _ _ H).
  js_run. destruct (storageFull (browser s)); cbn;
    eexists; (split; [reflexivity|]); cbn; by rewrite ?lookup_insert_eq.
Qed.

Lemma deleteTodo_twice (env : Platform TodoManager.Todo) i s :
  NoDup (map TodoManager.id (TodoManager.todos (this s))) ->
  final (TodoManager.deleteTodo env i (final (TodoManager.deleteTodo env i s)))
    = final (TodoManager.deleteTodo env i s).
Proof.
  intros Hnd.
  destruct (findIndex (TodoManager.has_id i) (TodoManager.todos (this s))) as [k|] eqn:E.
  - apply (findIndex_first_inv TodoManager.id) in E as [old H].
    destruct (deleteTodo_present env i s k old H) as (s' & -> & Hl & _). cbn.
    rewrite deleteTodo_absent; [done|]. rewrite Hl.
    destruct H as (Hk & Hi & _).
    exact (absent_after_delete TodoManager.id i _ k old Hnd Hk Hi).
  - assert (TodoManager.deleteTodo env i s = Normal Undefined s) as Hd.
    { unfold TodoManager.deleteTodo. js_monad. by rewrite E. }
    rewrite Hd. cbn. by rewrite Hd.
Qed.

Lemma deletePost_absent (env : Platform BlogManager.Post) i s :
  absent BlogManager.id i (BlogManager.posts (this s)) ->
  BlogManager.deletePost env i s = Normal Undefined s.
Proof.
  intros H. unfold BlogManager.deletePost, BlogManager.has_id. js_monad.
  by rewrite (findIndex_absent BlogManager.id).
Qed.

Lemma deletePost_declined (env : Platform BlogManager.Post) i s k old :
  first_with_id BlogManager.id i (BlogManager.posts (this s)) k old ->
  confirm env (deletePost_prompt old) = false ->
  BlogManager.deletePost env i s = Normal Undefined s.
Proof.
  intros H Hc. pose proof H as (Hk & _).
  unfold BlogManager.deletePost, BlogManager.has_id. js_monad.
  rewrite (findIndex_first BlogManager.id _ _ _ _ H), Hk.
  unfold deletePost_prompt in Hc. by rewrite Hc.
Qed.

Lemma deletePost_confirmed (env : Platform BlogManager.Post) i s k old :
  first_with_id BlogManager.id i (BlogManager.posts (this s)) k old ->
  confirm env (deletePost_prompt old) = true ->
  BlogManager.posts (this (final (BlogManager.deletePost env i s)))
    = delete k (BlogManager.posts (this s)) /\
  localStorage (browser (final (BlogManager.deletePost env i s))) !! "blog-posts" =
    if storageFull (browser s) then localStorage (browser s) !! "blog-posts"
    else Some (JSON_stringify env (delete k (BlogManager.posts (this s)))).
Proof.
  intros H Hc. pose proof H as (Hk & _).
  unfold BlogManager.deletePost, BlogManager.has_id. js_monad.
  rewrite (findIndex_first BlogManager.id _ _ _ _ H), Hk.
  unfold deletePost_prompt in Hc. rewrite Hc.
  js_run. destruct (storageFull (browser s)); cbn; by rewrite ?lookup_insert_eq.
Qed.

Lemma deletePost_twice (env : Platform BlogManager.Post) i s :
  NoDup (map BlogManager.id (BlogManager.posts (this s))) ->
  final (BlogManager.deletePost env i (final (BlogManager.deletePost env i s)))
    = final (BlogManager.deletePost env i s).
Proof.
  intros Hnd.
  destruct (findIndex (BlogManager.has_id i) (BlogManager.posts (this s))) as [k|] eqn:E.
  - apply (findIndex_first_inv BlogManager.id) in E as [old H].
    destruct (confirm env (deletePost_prompt old)) eqn:Hc.
    + destruct (deletePost_confirmed env i s k old H Hc) as [Hl _].
      rewrite (deletePost_absent env i (final _)); [done|]. rewrite Hl.
      destruct H as (Hk & Hi & _).
      exact (absent_after_delete BlogManager.id i _ k old Hnd Hk Hi).
    + rewrite (deletePost_declined env i s k old H Hc). cbn.
      by rewrite (deletePost_declined env i s k old H Hc).
  - assert (BlogManager.deletePost env i s = Normal Undefined s) as Hd.
    { unfold BlogManager.deletePost. js_monad. by rewrite E. }
    rewrite Hd. cbn. by rewrite Hd.
Qed.

Lemma clearCompleted_none (env : Platform TodoManager.Todo) s :
  length (List.filter (fun t => TodoManager.completed t) (TodoManager.todos (this s))) = 0 ->
  exists s',
    TodoManager.clearCompleted env s = Normal Undefined s' /\
    this s' = this s /\
    localStorage (browser s') = localStorage (browser s) /\
    notification (browser s') =
      (notification (browser s) ++ [("No completed todos to clear!", "info")])%list.
Proof.
  intros H. unfold TodoManager.clearCompleted. js_monad. rewrite H. cbn.
  eexists. by split.
Qed.

Lemma clearCompleted_declined (env : Platform TodoManager.Todo) s :
  let n := length (List.filter (fun t => TodoManager.completed t)
                     (TodoManager.todos (this s))) in
  n <> 0 -> confirm env (clearCompleted_prompt n) = false ->
  TodoManager.clearCompleted env s = Normal Undefined s.
Proof.
  intros n Hn Hc. unfold TodoManager.clearCompleted. js_monad. fold n.
  apply Nat.eqb_neq in Hn. rewrite Hn.
  unfold clearCompleted_prompt in Hc. by rewrite Hc.
Qed.

Lemma clearCompleted_confirmed (env : Platform TodoManager.Todo) s :
  let l := TodoManager.todos (this s) in
  let n := length (List.filter (fun t => TodoManager.completed t) l) in
  n <> 0 -> confirm env (clearCompleted_prompt n) = true ->
  exists s',
    TodoManager.clearCompleted env s = Normal Undefined s' /\
    TodoManager.todos (this s') = List.filter (fun t => negb (TodoManager.completed t)) l /\
    localStorage (browser s') !! "todos" =
      (if storageFull (browser s) then localStorage (browser s) !! "todos"
       else Some (JSON_stringify env
                    (List.filter (fun t => negb (TodoManager.completed t)) l))) /\
    last (notification (browser s')) =
      Some (toString (N.of_nat n) ++ " completed todos cleared!", "success").
Proof.
  intros l n Hn Hc. unfold TodoManager.clearCompleted. js_monad. fold l n.
  apply Nat.eqb_neq in Hn. rewrite Hn.
  unfold clearCompleted_prompt in Hc. rewrite Hc.
  js_run. destruct (storageFull (browser s)); cbn;
    eexists; (split; [reflexivity|]); cbn;
    rewrite ?lookup_insert_eq, ?last_snoc; by repeat split.
Qed.

Lemma elem_of_filter_bool {A} (p : A -> bool) (l : list A) x :
  x ∈ List.filter p l <-> x ∈ l /\ p x = true.
Proof. rewrite !list_elem_of_In. apply filter_In. Qed.

(** C7, as stated, fails.  [deletePost] asks for confirmation: when the
    user declines, the post that carries the identifier stays.  And with
    two todos that carry the same identifier, deleting that identifier
    twice removes both while deleting it once removes one. *)
Lemma C7_delete_not_always_once :
  BlogManager.posts (this (blog_state [hello] "list" None browser0)) = [hello] /\
  BlogManager.id hello = "1699999999000" /\
  BlogManager.deletePost (blog_platform false) "1699999999000"
      (blog_state [hello] "list" None browser0)
    = Normal Undefined (blog_state [hello] "list" None browser0) /\
  (let once := final (TodoManager.deleteTodo (todo_platform true) "1700000000000"
                        (todo_state [twin_a; twin_b] browser0)) in
   let twice := final (TodoManager.deleteTodo (todo_platform true) "1700000000000" once) in
   TodoManager.todos (this once) = [twin_b] /\ TodoManager.todos (this twice) = []).
Proof. cbv zeta. js_run. by repeat split. Qed.

(** C7, amended: a delete whose identifier no record carries changes
    nothing at all, so nothing is written to storage.  Otherwise
    [deleteTodo] removes the first record that carries the identifier,
    and only it, and writes the shorter collection to storage unless the
    storage refuses; [deletePost] does the same once the user confirms
    the prompt and changes nothing when the user declines.  When the
    identifiers in the collection are pairwise distinct, deleting an
    identifier twice ends in the same state as deleting it once. *)
Theorem C7_delete_first_match
    (envt : Platform TodoManager.Todo) (envb : Platform BlogManager.Post)
    (i : string) (st : State TodoManager.Manager)
    (j : string) (sb : State BlogManager.Manager) :
  (absent TodoManager.id i (TodoManager.todos (this st)) ->
   TodoManager.deleteTodo envt i st = Normal Undefined st) /\
  (forall k old,
     first_with_id TodoManager.id i (TodoManager.todos (this st)) k old ->
     exists st',
       TodoManager.deleteTodo envt i st = Normal Undefined st' /\
       TodoManager.todos (this st') = delete k (TodoManager.todos (this st)) /\
       S (length (TodoManager.todos (this st'))) = length (TodoManager.todos (this st)) /\
       localStorage (browser st') !! "todos" =
         if storageFull (browser st) then localStorage (browser st) !! "todos"
         else Some (JSON_stringify envt (delete k (TodoManager.todos (this st))))) /\
  (NoDup (map TodoManager.id (TodoManager.todos (this st))) ->
   final (TodoManager.deleteTodo envt i (final (TodoManager.deleteTodo envt i st)))
     = final (TodoManager.deleteTodo envt i st)) /\
  (absent BlogManager.id j (BlogManager.posts (this sb)) ->
   BlogManager.deletePost envb j sb = Normal Undefined sb) /\
  (forall k old,
     first_with_id BlogManager.id j (BlogManager.posts (this sb)) k old ->
     let sb' := final (BlogManager.deletePost envb j sb) in
     if confirm envb (deletePost_prompt old)
     then BlogManager.posts (this sb') = delete k (BlogManager.posts (this sb)) /\
          S (length (BlogManager.posts (this sb'))) = length (BlogManager.posts (this sb)) /\
          localStorage (browser sb') !! "blog-posts" =
            (if storageFull (browser sb) then localStorage (browser sb) !! "blog-posts"
             else Some (JSON_stringify envb (delete k (BlogManager.posts (this sb)))))
     else BlogManager.deletePost envb j sb = Normal Undefined sb) /\
  (NoDup (map BlogManager.id (BlogManager.posts (this sb))) ->
   final (BlogManager.deletePost envb j (final (BlogManager.deletePost envb j sb)))
     = final (BlogManager.deletePost envb j sb)).
Proof.
  split; [apply deleteTodo_absent|].
  split; [|split; [apply deleteTodo_twice|]].
  { intros k old H.
    destruct (deleteTodo_present envt i st k old H) as (st' & E & Hl & Hs).
    exists st'. repeat split; [done..| |done].
    rewrite Hl, length_delete; [|by destruct H as [-> _]].
    destruct H as [Hk%lookup_lt_Some _]. lia. }
  split; [apply deletePost_absent|]. split; [|apply deletePost_twice].
  intros k old H sb'. subst sb'.
  destruct (confirm envb (deletePost_prompt old)) eqn:Hc.
  - destruct (deletePost_confirmed envb j sb k old H Hc) as [Hl Hs].
    repeat split; [done| |done].
    rewrite Hl, length_delete; [|by destruct H as [-> _]].
    destruct H as [Hk%lookup_lt_Some _]. lia.
  - by apply (deletePost_declined envb j sb k old).
Qed.

(** C8, as stated, fails: with one completed todo in the collection and
    a user who declines the prompt, [clearCompleted] removes nothing. *)
Lemma C8_clearCompleted_declined_keeps_completed :
  TodoManager.completed done_task = true /\
  TodoManager.clearCompleted (todo_platform false) (todo_state [milk; done_task] browser0)
    = Normal Undefined (todo_state [milk; done_task] browser0).
Proof. split; [reflexivity|]. js_run. reflexivity. Qed.

(** C8, amended: with no completed todo, [clearCompleted] leaves the
    manager and the storage as they are and shows the toast No completed
    todos to clear! of kind info.  With [n > 0] completed todos it asks
    for confirmation: when the user confirms, the collection becomes its
    records that are not completed, in their order (a record stays
    exactly when it was there and is not completed), the collection is
    written to storage unless the storage refuses, and the last toast
    is the one of kind success that tells the count; when the user
    declines, nothing changes. *)
Theorem C8_clearCompleted_removes_completed
    (env : Platform TodoManager.Todo) (s : State TodoManager.Manager) :
  let l := TodoManager.todos (this s) in
  let n := length (List.filter (fun t => TodoManager.completed t) l) in
  (n = 0 ->
   exists s',
     TodoManager.clearCompleted env s = Normal Undefined s' /\
     this s' = this s /\
     localStorage (browser s') = localStorage (browser s) /\
     notification (browser s') =
       (notification (browser s) ++ [("No completed todos to clear!", "info")])%list) /\
  (n <> 0 -> confirm env (clearCompleted_prompt n) = true ->
   exists s',
     TodoManager.clearCompleted env s = Normal Undefined s' /\
     TodoManager.todos (this s') = List.filter (fun t => negb (TodoManager.completed t)) l /\
     (forall t, t ∈ TodoManager.todos (this s') <->
                t ∈ l /\ TodoManager.completed t = false) /\
     localStorage (browser s') !! "todos" =
       (if storageFull (browser s) then localStorage (browser s) !! "todos"
        else Some (JSON_stringify env
                     (List.filter (fun t => negb (TodoManager.completed t)) l))) /\
     last (notification (browser s')) =
       Some (toString (N.of_nat n) ++ " completed todos cleared!", "success")) /\
  (n <> 0 -> confirm env (clearCompleted_prompt n) = false ->
   TodoManager.clearCompleted env s = Normal Undefined s).
Proof.
  intros l n. split; [apply clearCompleted_none|].
  split; [|apply clearCompleted_declined].
  intros Hn Hc.
  destruct (clearCompleted_confirmed env s Hn Hc) as (s' & E & Hl & Hs & Ht).
  exists s'. split; [done|]. split; [done|]. split; [|by split].
  intros t. by rewrite Hl, elem_of_filter_bool, negb_true_iff.
Qed.

(** C10: [deletePost] on a collection that holds the identifier shows
    a prompt with the title of the first such post; declined, the call
    changes nothing at all (collection and storage included), confirmed,
    that post is removed.  [clearCompleted] with at least one completed
    todo shows a prompt with their number; declined, nothing changes,
    confirmed, the completed todos are removed.  [deleteTodo] removes
    the first todo with the identifier whatever the user would answer. *)
Theorem C10_confirmation_decides
    (envt : Platform TodoManager.Todo) (envb : Platform BlogManager.Post)
    (i : string) (st : State TodoManager.Manager)
    (j : string) (sb : State BlogManager.Manager) :
  (forall k old,
     first_with_id BlogManager.id j (BlogManager.posts (this sb)) k old ->
     (confirm envb (deletePost_prompt old) = false ->
      BlogManager.deletePost envb j sb = Normal Undefined sb) /\
     (confirm envb (deletePost_prompt old) = true ->
      BlogManager.posts (this (final (BlogManager.deletePost envb j sb)))
        = delete k (BlogManager.posts (this sb))) /\
     (BlogManager.posts (this (final (BlogManager.deletePost envb j sb)))
        <> BlogManager.posts (this sb) ->
      confirm envb (deletePost_prompt old) = true)) /\
  (let l := TodoManager.todos (this st) in
   let n := length (List.filter (fun t => TodoManager.completed t) l) in
   n <> 0 ->
   (confirm envt (clearCompleted_prompt n) = false ->
    TodoManager.clearCompleted envt st = Normal Undefined st) /\
   (confirm envt (clearCompleted_prompt n) = true ->
    TodoManager.todos (this (final (TodoManager.clearCompleted envt st)))
      = List.filter (fun t => negb (TodoManager.completed t)) l) /\
   (TodoManager.todos (this (final (TodoManager.clearCompleted envt st))) <> l ->
    confirm envt (clearCompleted_prompt n) = true)) /\
  (forall k old,
     first_with_id TodoManager.id i (TodoManager.todos (this st)) k old ->
     TodoManager.todos (this (final (TodoManager.deleteTodo envt i st)))
       = delete k (TodoManager.todos (this st))).
Proof.
  split; [|split].
  - intros k old H. split; [by apply (deletePost_declined envb j sb k old)|].
    split; [by apply (deletePost_confirmed envb j sb k old)|].
    intros Hne. destruct (confirm envb (deletePost_prompt old)) eqn:Hc; [done|].
    by rewrite (deletePost_declined envb j sb k old H Hc) in Hne.
  - intros l n Hn. split; [by apply clearCompleted_declined|]. split.
    + intros Hc.
      by destruct (clearCompleted_confirmed envt st Hn Hc) as (s' & -> & Hl & _).
    + intros Hne. destruct (confirm envt (clearCompleted_prompt n)) eqn:Hc; [done|].
      by rewrite (clearCompleted_declined envt st Hn Hc) in Hne.
  - intros k old H.
    by destruct (deleteTodo_present envt i st k old H) as (s' & -> & Hl & _).
Qed.

End Claims_remove.

(** ** Projecting the collection *)

Section Claims_project.
Import Js Spec Sample.

Lemma filter_bool_sublist {A} (p : A -> bool) (l : list A) :
  List.filter p l `sublist_of` l.
Proof.
  induction l as [|a l IH]; cbn; [constructor|].
  destruct (p a); by constructor.
Qed.















End Claims_project.

(** ** The todo manager over sequences of commands *)

Section TodoSessions.
Import Js Spec Sample TodoManager TodoCommands.
Context (env : Platform Todo).

Lemma map_alter_same {A B} (g : A -> B) (f : A -> A) k (l : list A) :
  (forall x, g (f x) = g x) -> map g (alter f k l) = map g l.
Proof.
  intros Hg. revert k. induction l as [|a l IH]; intros [|k]; cbn; try done.
  - by rewrite Hg.
  - by rewrite IH.
Qed.

Lemma filter_alter_same {A} (p : A -> bool) (f : A -> A) k (l : list A) :
  (forall x, p (f x) = p x) ->
  length (List.filter p (alter f k l)) = length (List.filter p l).
Proof.
  intros Hp. revert k. induction l as [|a l IH]; intros [|k]; cbn; try done.
  - rewrite Hp. by destruct (p a).
  - destruct (p a); cbn; by rewrite IH.
Qed.

(** What one command does to the three properties followed along a
    sequence. *)
Lemma exec_step (c : Command) (s : State Manager) :
  exists s',
    exec env c s = Normal tt s' /\
    storageFull (browser s') = storageFull (browser s) /\
    (page_ok (this s) -> page_ok (this s')) /\
    (storageFull (browser s) = false -> in_sync env s -> in_sync env s').
Proof.
  assert (forall s0 : State Manager,
            exists s', (ret tt : js _ _) s0 = Normal tt s' /\
              storageFull (browser s') = storageFull (browser s0) /\
              (page_ok (this s0) -> page_ok (this s')) /\
              (storageFull (browser s0) = false -> in_sync env s0 -> in_sync env s'))
    as Hskip by (intros s0; by exists s0).
  destruct c as [text priority dueDate|i|i|i newText|filter| |a b c0|i];
    unfold exec.
  - (* addTodo *)
    js_run. destruct (storageFull (browser s)) eqn:Ef; cbn;
      eexists; (split; [reflexivity|]); cbn; (split; [done|]);
      unfold page_ok, in_sync, getFilteredTodos; cbn; rewrite ?Ef;
      (split; [intros _; by repeat split | intros; by rewrite ?lookup_insert_eq]).
  - (* toggleTodo *)
    unfold toggleTodo. js_monad.
    destruct (findIndex (has_id i) (todos (this s))) as [k|]; [|apply Hskip].
    js_run. destruct (storageFull (browser s)) eqn:Ef; cbn;
      eexists; (split; [reflexivity|]); cbn; (split; [done|]);
      unfold page_ok, in_sync, getFilteredTodos; cbn; rewrite ?Ef;
      (split; [intros _; by repeat split | intros; by rewrite ?lookup_insert_eq]).
  - (* deleteTodo *)
    unfold deleteTodo. js_monad.
    destruct (findIndex (has_id i) (todos (this s))) as [k|]; [|apply Hskip].
    js_run. destruct (storageFull (browser s)) eqn:Ef; cbn;
      eexists; (split; [reflexivity|]); cbn; (split; [done|]);
      unfold page_ok, in_sync, getFilteredTodos; cbn; rewrite ?Ef;
      (split; [intros _; by repeat split | intros; by rewrite ?lookup_insert_eq]).
  - (* editTodo *)
    unfold editTodo. js_monad.
    destruct (findIndex (has_id i) (todos (this s))) as [k|]; [|apply Hskip].
    destruct (truthy (trim newText)); [|apply Hskip].
    js_run. destruct (storageFull (browser s)) eqn:Ef; cbn;
      eexists; (split; [reflexivity|]); cbn; (split; [done|]);
      unfold page_ok, in_sync, getFilteredTodos; cbn; rewrite ?Ef;
      (split; [| intros; by rewrite ?lookup_insert_eq]);
      intros (_ & _ & Ht & Hc); rewrite Ht, Hc, length_alter;
      by rewrite filter_alter_same.
  - (* setFilter *)
    js_run. eexists; (split; [reflexivity|]); cbn; (split; [done|]).
    unfold page_ok, in_sync, getFilteredTodos; cbn.
    split; [by intros (_ & _ & ? & ?) | done].
  - (* clearCompleted *)
    unfold clearCompleted. js_monad.
    destruct (length (List.filter (fun t => completed t) (todos (this s))) =? 0)%nat.
    + cbn. eexists; (split; [reflexivity|]); cbn.
      split; [done|]. split; [done|]. by unfold in_sync.
    + destruct (confirm env _); [|apply Hskip].
      js_run. destruct (storageFull (browser s)) eqn:Ef; cbn;
        eexists; (split; [reflexivity|]); cbn; (split; [done|]);
        unfold page_ok, in_sync, getFilteredTodos; cbn; rewrite ?Ef;
        (split; [intros _; by repeat split | intros; by rewrite ?lookup_insert_eq]).
  - (* the form *)
    unfold todoForm_submit. destruct (truthy (trim a)); [|apply Hskip].
    js_run. destruct (storageFull (browser s)) eqn:Ef; cbn;
      eexists; (split; [reflexivity|]); cbn; (split; [done|]);
      unfold page_ok, in_sync, getFilteredTodos; cbn; rewrite ?Ef;
      (split; [intros _; by repeat split | intros; by rewrite ?lookup_insert_eq]).
  - (* the delete button *)
    unfold deleteBtn_click. destruct (confirm env _); [|apply Hskip].
    unfold deleteTodo. js_monad.
    destruct (findIndex (has_id i) (todos (this s))) as [k|]; [|apply Hskip].
    js_run. destruct (storageFull (browser s)) eqn:Ef; cbn;
      eexists; (split; [reflexivity|]); cbn; (split; [done|]);
      unfold page_ok, in_sync, getFilteredTodos; cbn; rewrite ?Ef;
      (split; [intros _; by repeat split | intros; by rewrite ?lookup_insert_eq]).
Qed.

Lemma exec_all_step (cs : list Command) (s : State Manager) :
  exists s',
    exec_all env cs s = Normal tt s' /\
    storageFull (browser s') = storageFull (browser s) /\
    (page_ok (this s) -> page_ok (this s')) /\
    (storageFull (browser s) = false -> in_sync env s -> in_sync env s').
Proof.
  revert s. induction cs as [|c cs IH]; intros s; cbn [exec_all].
  - by exists s.
  - destruct (exec_step c s) as (s1 & E1 & Hf1 & Hp1 & Hs1).
    destruct (IH s1) as (s2 & E2 & Hf2 & Hp2 & Hs2).
    exists s2. split.
    + js_monad. by rewrite E1.
    + split; [congruence|]. split; [tauto|].
      intros Hf Hs. apply Hs2; [congruence | by apply Hs1].
Qed.

(** X1: No sequence of commands makes the todo manager throw: every call
    returns, also when the storage refuses every write. *)
Theorem todo_commands_never_throw (cs : list Command) (s : State Manager) :
  exists s', exec_all env cs s = Normal tt s'.
Proof. destruct (exec_all_step cs s) as (s' & E & _). by exists s'. Qed.


(** X3: While the storage accepts writes, the stored text stays the
    serialised collection through every sequence of commands. *)
Theorem todo_storage_stays_in_sync (cs : list Command) (s : State Manager) :
  storageFull (browser s) = false -> in_sync env s ->
  in_sync env (final (exec_all env cs s)).
Proof.
  intros Hf H. destruct (exec_all_step cs s) as (s' & -> & _ & _ & Hs). by apply Hs.
Qed.

End TodoSessions.

Section TodoSessionExamples.
Import Js.


Lemma todo_sync_witness :
  TodoCommands.in_sync (Sample.todo_platform true)
    (final (TodoCommands.exec_all (Sample.todo_platform true)
              [TodoCommands.SubmitForm " Pay rent " "low" "";
               TodoCommands.ToggleTodo "1700000000000";
               TodoCommands.ClearCompleted]
              (Sample.todo_state [] (Reload.browser_with "todos" "[]")))).
Proof.
  apply (todo_storage_stays_in_sync (Sample.todo_platform true)).
  - reflexivity.
  - unfold TodoCommands.in_sync. cbn. apply lookup_singleton_eq.
Defined.

End TodoSessionExamples.

(** ** What the todo commands do to the collection *)

Section TodoCollection.
Import Js Spec TodoManager TodoCommands.
Context (env : Platform Todo).

Lemma trimStart_idemp s : trimStart (trimStart s) = trimStart s.
Proof.
  induction s as [|c s IH]; [done|]. cbn.
  destruct (isWhiteSpace c) eqn:E; [done|]. cbn. by rewrite E.
Qed.

Lemma trim_idemp s : trim (trim s) = trim s.
Proof.
  unfold trim. by rewrite trimStart_trimEnd, trimStart_idemp, trimEnd_idemp.
Qed.

Lemma sublist_map {A B} (g : A -> B) (l1 l2 : list A) :
  l1 `sublist_of` l2 -> map g l1 `sublist_of` map g l2.
Proof. induction 1; cbn; by constructor. Qed.

Lemma Forall_filter_bool {A} (P : A -> Prop) (p : A -> bool) (l : list A) :
  Forall P l -> Forall P (List.filter p l).
Proof.
  induction 1 as [|a l Ha Hl IH]; cbn; [constructor|].
  destruct (p a); [by constructor | done].
Qed.

Lemma findIndex_alter_same {A} (p : A -> bool) (f : A -> A) k (l : list A) :
  (forall x, p (f x) = p x) -> findIndex p (alter f k l) = findIndex p l.
Proof.
  intros Hp. revert k. induction l as [|a l IH]; intros [|k]; cbn; try done.
  - by rewrite Hp.
  - by rewrite IH.
Qed.

Lemma alter_alter {A} (f g : A -> A) k (l : list A) :
  alter f k (alter g k l) = alter (fun x => f (g x)) k l.
Proof.
  revert k. induction l as [|a l IH]; intros [|k]; cbn; try done.
  by rewrite IH.
Qed.

(** The shapes a command can give the collection. *)
Lemma exec_collection (c : Command) (s : State Manager) :
  let l := todos (this s) in
  exists s',
    exec env c s = Normal tt s' /\
    (todos (this s') = l \/
     (creates c = true /\
      exists t, todos (this s') = t :: l /\ completed t = false /\
                (is_addTodo c = false -> text_ok t)) \/
     (exists k, todos (this s')
                = alter (fun todo => set_completed (negb (completed todo)) todo) k l) \/
     (exists k newText, trimmed newText /\
                        todos (this s') = alter (set_text newText) k l) \/
     (exists k, todos (this s') = delete k l) \/
     todos (this s') = List.filter (fun todo => negb (completed todo)) l).
Proof.
  intros l. subst l.
  assert (forall s0 : State Manager,
            (ret tt : js _ _) s0 = Normal tt s0) as Hret by done.
  destruct c as [text priority dueDate|i|i|i newText|filter| |a b c0|i];
    unfold exec.
  - js_run. destruct (storageFull (browser s)); cbn;
      eexists; (split; [reflexivity|]); cbn;
      right; left; (split; [done|]); eexists; by repeat split.
  - unfold toggleTodo. js_monad.
    destruct (findIndex (has_id i) (todos (this s))) as [k|];
      [|exists s; split; [done | by left]].
    js_run. destruct (storageFull (browser s)); cbn;
      eexists; (split; [reflexivity|]); cbn; right; right; left; by exists k.
  - unfold deleteTodo. js_monad.
    destruct (findIndex (has_id i) (todos (this s))) as [k|];
      [|exists s; split; [done | by left]].
    js_run. destruct (storageFull (browser s)); cbn;
      eexists; (split; [reflexivity|]); cbn; do 4 right; left; by exists k.
  - unfold editTodo. js_monad.
    destruct (findIndex (has_id i) (todos (this s))) as [k|];
      [|exists s; split; [done | by left]].
    destruct (truthy (trim newText)) eqn:Et; [|exists s; split; [done | by left]].
    apply truthy_true in Et.
    js_run. destruct (storageFull (browser s)); cbn;
      eexists; (split; [reflexivity|]); cbn; do 3 right; left;
      exists k, (trim newText); (split; [by apply trim_trimmed | done]).
  - js_run. eexists; (split; [reflexivity|]); cbn. by left.
  - unfold clearCompleted. js_monad.
    destruct (length (List.filter (fun t => completed t) (todos (this s))) =? 0)%nat.
    + cbn. eexists; (split; [reflexivity|]); cbn. by left.
    + destruct (confirm env _); [|exists s; split; [done | by left]].
      js_run. destruct (storageFull (browser s)); cbn;
        eexists; (split; [reflexivity|]); cbn; by do 5 right.
  - unfold todoForm_submit.
    destruct (truthy (trim a)) eqn:Et; [|exists s; split; [done | by left]].
    apply truthy_true in Et.
    js_run. destruct (storageFull (browser s)); cbn;
      eexists; (split; [reflexivity|]); cbn;
      right; left; (split; [done|]); eexists;
      (split; [reflexivity|]); (split; [done|]); intros _;
      exact (trim_trimmed a Et).
  - unfold deleteBtn_click.
    destruct (confirm env _); [|exists s; split; [done | by left]].
    unfold deleteTodo. js_monad.
    destruct (findIndex (has_id i) (todos (this s))) as [k|];
      [|exists s; split; [done | by left]].
    js_run. destruct (storageFull (browser s)); cbn;
      eexists; (split; [reflexivity|]); cbn; do 4 right; left; by exists k.
Qed.

(** X4: Toggling the same identifier twice gives back the collection as it
    was, record for record, whether or not a record carries the
    identifier. *)
Theorem toggleTodo_twice_restores (i : string) (s : State Manager) :
  todos (this (final (toggleTodo env i (final (toggleTodo env i s)))))
    = todos (this s).
Proof.
  assert (forall s0 : State Manager,
    todos (this (final (toggleTodo env i s0))) =
      match findIndex (has_id i) (todos (this s0)) with
      | Some k => alter (fun todo => set_completed (negb (completed todo)) todo) k
                    (todos (this s0))
      | None => todos (this s0)
      end) as Hone.
  { intros s0. unfold toggleTodo. js_monad.
    destruct (findIndex (has_id i) (todos (this s0))) as [k|]; [|done].
    js_run. by destruct (storageFull (browser s0)). }
  rewrite Hone, Hone.
  destruct (findIndex (has_id i) (todos (this s))) as [k|] eqn:E.
  - rewrite findIndex_alter_same, E by done.
    rewrite alter_alter. apply list_alter_id.
    intros [? ? c ? ? ?]. unfold set_completed. cbn. by rewrite negb_involutive.
  - by rewrite E.
Qed.

(** X5: [toggleTodo] on an identifier no record carries changes nothing at
    all; otherwise it flips the flag of the first record that carries
    it, leaves every other field and record as it was, and ends with a
    toast of kind info that names the new state. *)
Theorem toggleTodo_flips_first_match (i : string) (s : State Manager) :
  (absent id i (todos (this s)) -> toggleTodo env i s = Normal Undefined s) /\
  (forall k old,
     first_with_id id i (todos (this s)) k old ->
     exists s',
       toggleTodo env i s = Normal Undefined s' /\
       todos (this s') =
         <[k := set_completed (negb (completed old)) old]> (todos (this s)) /\
       last (notification (browser s')) =
         Some (if completed old then "Todo marked as pending" else "Todo completed!",
               "info")).
Proof.
  split.
  - intros H. unfold toggleTodo, has_id. js_monad.
    by rewrite (findIndex_absent id).
  - intros k old H. pose proof H as (Hk & _).
    unfold toggleTodo, has_id. js_monad.
    rewrite (findIndex_first id _ _ _ _ H).
    js_run.
    destruct (storageFull (browser s)); cbn;
      rewrite list_lookup_alter_eq, Hk; cbn;
      eexists; (split; [reflexivity|]); cbn;
      rewrite last_snoc;
      (split; [by apply (alter_as_insert
                          (fun todo => set_completed (negb (completed todo)) todo))|]);
      by destruct (completed old).
Qed.

Lemma exec_all_final (c : Command) (cs : list Command) (s : State Manager) :
  final (exec_all env (c :: cs) s) = final (exec_all env cs (final (exec env c s))).
Proof.
  destruct (exec_collection c s) as (s' & E & _).
  cbn [exec_all]. js_monad. by rewrite E.
Qed.

(** X6: Only creation brings an identifier in: along a sequence of commands
    without [addTodo] and without form submission, the identifiers in
    the collection are, in their order, among those it started with (so
    none is changed, and pairwise distinct identifiers stay so). *)
Theorem todo_ids_come_from_creation (cs : list Command) (s : State Manager) :
  forallb (fun c => negb (creates c)) cs = true ->
  map id (todos (this (final (exec_all env cs s))))
    `sublist_of` map id (todos (this s)) /\
  (NoDup (map id (todos (this s))) ->
   NoDup (map id (todos (this (final (exec_all env cs s)))))).
Proof.
  intros Hcs.
  assert (map id (todos (this (final (exec_all env cs s))))
            `sublist_of` map id (todos (this s))) as Hsub;
    [|split; [done | intros Hnd; by eapply sublist_NoDup]].
  revert s. induction cs as [|c cs IH]; intros s; [done|].
  cbn in Hcs. apply andb_true_iff in Hcs as [Hc Hcs]. apply negb_true_iff in Hc.
  rewrite exec_all_final. etrans; [by apply IH|].
  destruct (exec_collection c s) as (s' & -> & Hshape). cbn.
  destruct Hshape as [->|[[? _]|[[k ->]|[(k & nt & _ & ->)|[[k ->]| ->]]]]].
  - done.
  - congruence.
  - by rewrite map_alter_same.
  - by rewrite map_alter_same.
  - apply sublist_map, sublist_delete.
  - apply sublist_map, filter_bool_sublist.
Qed.

(** X7: Texts that come through the page are kept trimmed: along a sequence
    of commands without a direct call of [addTodo], if every text in the
    collection has something in it and neither begins nor ends with a
    white-space code unit (TAB, LF, VT, FF, CR, space, no-break space),
    that is still so afterwards: the form and [editTodo] store the text
    without the white space around it and refuse a text that has
    nothing else. *)
Theorem todo_texts_stay_trimmed (cs : list Command) (s : State Manager) :
  forallb (fun c => negb (is_addTodo c)) cs = true ->
  Forall (fun t => trimmed (text t)) (todos (this s)) ->
  Forall (fun t => trimmed (text t)) (todos (this (final (exec_all env cs s)))).
Proof.
  revert s. induction cs as [|c cs IH]; intros s Hcs Hl; [done|].
  cbn in Hcs. apply andb_true_iff in Hcs as [Hc Hcs]. apply negb_true_iff in Hc.
  rewrite exec_all_final. apply IH; [done|].
  destruct (exec_collection c s) as (s' & -> & Hshape). cbn.
  destruct Hshape as [->|[(_ & t & -> & _ & Ht)|[[k ->]|[(k & nt & Htr & ->)|[[k ->]| ->]]]]].
  - done.
  - constructor; [by apply Ht | done].
  - apply Forall_alter; [done|]. by intros [] _.
  - apply Forall_alter; [done|]. by intros x _ _.
  - by apply Forall_delete.
  - by apply Forall_filter_bool.
Qed.

End TodoCollection.

Section TodoCollectionExamples.
Import Js.

Lemma todo_ids_witness :
  map TodoManager.id
    (TodoManager.todos
       (this (final (TodoCommands.exec_all (Sample.todo_platform true)
                       [TodoCommands.ToggleTodo "1700000000000";
                        TodoCommands.EditTodo "1699999999000" "Pay the rent";
                        TodoCommands.ClearCompleted]
                       (Sample.todo_state [Sample.milk; Sample.done_task]
                          Sample.browser0)))))
    `sublist_of` ["1700000000000"; "1699999999000"].
Proof.
  apply (todo_ids_come_from_creation (Sample.todo_platform true)
           [TodoCommands.ToggleTodo "1700000000000";
            TodoCommands.EditTodo "1699999999000" "Pay the rent";
            TodoCommands.ClearCompleted]
           (Sample.todo_state [Sample.milk; Sample.done_task] Sample.browser0)).
  reflexivity.
Defined.

Lemma todo_texts_witness :
  let l := TodoManager.todos
             (this (final (TodoCommands.exec_all (Sample.todo_platform true)
                             [TodoCommands.SubmitForm "  Pay rent " "low" "";
                              TodoCommands.EditTodo "1700000000000" " Buy  oat milk  ";
                              TodoCommands.EditTodo "1700000000000" "   "]
                             (Sample.todo_state [Sample.done_task] Sample.browser0)))) in
  Forall (fun t => Spec.trimmed (TodoManager.text t)) l /\
  map TodoManager.text l = ["Buy  oat milk"; "Pay rent"].
Proof.
  split; [|reflexivity].
  apply (todo_texts_stay_trimmed (Sample.todo_platform true)).
  - reflexivity.
  - constructor; [|constructor]. split; [discriminate|]. split.
    + intros c rest [= <- _]. unfold Spec.white. vm_compute. lia.
    + intros front c E.
      assert (c = "t"%char) as ->; [|unfold Spec.white; vm_compute; lia].
      cbn in E.
      repeat (destruct front as [|? front]; [by injection E|];
              rewrite append_cons in E; injection E as _ E).
      by destruct front.
Defined.

End TodoCollectionExamples.

(** ** Starting the todo manager *)

Section TodoStart.
Import Js Spec TodoManager TodoCommands.
Context (env : Platform Todo).

Lemma todo_constructor_step (b : Browser) :
  exists s',
    new env b = Normal tt s' /\
    todos (this s') =
      match localStorage b !! "todos" with
      | Some raw => if truthy raw then default [] (JSON_parse env raw) else []
      | None => []
      end /\
    todoList (this s') = todos (this s').
Proof.
  unfold new, constructor, loadTodos, init. js_run.
  destruct (localStorage b !! "todos") as [raw|]; cbn.
  - destruct (truthy raw); cbn.
    + destruct (JSON_parse env raw) as [v|]; cbn;
        eexists; (split; [reflexivity|]); cbn; by repeat split.
    + eexists; (split; [reflexivity|]); cbn; by repeat split.
  - eexists; (split; [reflexivity|]); cbn; by repeat split.
Qed.

(** X8: [new TodoManager()] on a storage whose text under [todos] is
    missing, empty, not JSON, or the JSON form of an array of todo
    records.  In each of these cases it returns without throwing and
    leaves the storage and the toasts as they are; the manager starts
    with the filter all and a page that shows the whole collection with
    matching counters, and the clock has been read once for each record
    that has a due date.  The collection is empty in the first three
    cases and the array read in the fourth. *)
Theorem todo_constructor_starts_clean (b : Browser) :
  let stored := localStorage b !! "todos" in
  let started (v : list Todo) :=
    exists s',
      new env b = Normal tt s' /\
      localStorage (browser s') = localStorage b /\
      storageFull (browser s') = storageFull b /\
      notification (browser s') = notification b /\
      clockReads (browser s') =
        clockReads b + length (List.filter (fun t => truthy (dueDate t)) v) /\
      currentFilter (this s') = "all" /\
      todos (this s') = v /\
      todoList (this s') = v /\
      page_ok (this s') in
  (stored = None -> started []) /\
  (stored = Some "" -> started []) /\
  (forall raw, stored = Some raw -> raw <> "" ->
     JSON_parse env raw = None -> started []) /\
  (forall raw v, stored = Some raw -> raw <> "" ->
     JSON_parse env raw = Some v -> started v).
Proof.
  intros stored started. subst stored started.
  unfold new, constructor, loadTodos, init. js_run.
  repeat apply conj.
  - intros ->. cbn. eexists. split; [reflexivity|]. cbn. by repeat split.
  - intros ->. cbn. eexists. split; [reflexivity|]. cbn. by repeat split.
  - intros raw -> Hraw%truthy_true ->. cbn. rewrite Hraw. cbn.
    eexists. split; [reflexivity|]. cbn. by repeat split.
  - intros raw v -> Hraw%truthy_true ->. cbn. rewrite Hraw. cbn.
    eexists. split; [reflexivity|]. cbn. by repeat split.
Qed.

(** X9: A manager started on the storage another one left finds the same
    collection, when the platform's [JSON.parse] reads back what its
    [JSON.stringify] wrote for that collection. *)
Theorem todo_reload_round_trip (s : State Manager) :
  in_sync env s ->
  truthy (JSON_stringify env (todos (this s))) = true ->
  JSON_parse env (JSON_stringify env (todos (this s))) = Some (todos (this s)) ->
  exists s',
    new env (browser s) = Normal tt s' /\
    todos (this s') = todos (this s) /\
    todoList (this s') = todos (this s).
Proof.
  intros Hs Ht Hp.
  destruct (todo_constructor_step (browser s)) as (s' & E & Hl & Hshown).
  exists s'. split; [done|]. rewrite Hshown, Hl.
  unfold in_sync in Hs. by rewrite Hs, Ht, Hp.
Qed.

End TodoStart.

Section TodoStartExamples.
Import Js.

Lemma todo_reload_witness :
  exists s',
    TodoManager.new (Reload.platform Sample.todo_json [Sample.milk] true)
        (Reload.browser_with "todos" (Sample.array [Sample.todo_json Sample.milk]))
      = Normal tt s' /\
    TodoManager.todos (this s') = [Sample.milk] /\
    TodoManager.todoList (this s') = [Sample.milk].
Proof.
  apply (todo_reload_round_trip (Reload.platform Sample.todo_json [Sample.milk] true)
           (Sample.todo_state [Sample.milk]
              (Reload.browser_with "todos" (Sample.array [Sample.todo_json Sample.milk])))).
  - unfold TodoCommands.in_sync. cbn. apply lookup_singleton_eq.
  - reflexivity.
  - reflexivity.
Defined.

(** Started on a stored array that holds the one todo Buy milk, which
    has a due date, the manager shows it and has read the clock once. *)
Lemma todo_constructor_witness :
  exists s',
    TodoManager.new (Reload.platform Sample.todo_json [Sample.milk] true)
        (Reload.browser_with "todos" (Sample.array [Sample.todo_json Sample.milk]))
      = Normal tt s' /\
    TodoManager.todos (this s') = [Sample.milk] /\
    TodoManager.todoList (this s') = [Sample.milk] /\
    TodoManager.currentFilter (this s') = "all" /\
    clockReads (browser s') = 1.
Proof.
  destruct (todo_constructor_starts_clean
              (Reload.platform Sample.todo_json [Sample.milk] true)
              (Reload.browser_with "todos" (Sample.array [Sample.todo_json Sample.milk])))
    as (_ & _ & _ & Harray).
  destruct (Harray (Sample.array [Sample.todo_json Sample.milk]) [Sample.milk])
    as (s' & E & _ & _ & _ & Hclock & Hfilter & Hl & Hshown & _).
  - apply lookup_singleton_eq.
  - by vm_compute.
  - reflexivity.
  - exists s'. by repeat split.
Defined.

End TodoStartExamples.

(** ** The blog manager over sequences of commands *)

Section BlogSessions.
Import Js Spec BlogManager BlogCommands.
Context (env : Platform Post).

Lemma map_insert_same {A B} (g : A -> B) k (x old : A) (l : list A) :
  l !! k = Some old -> g x = g old -> map g (<[k := x]> l) = map g l.
Proof.
  revert k. induction l as [|a l IH]; intros [|k] Hk Hg; cbn in *; try done.
  - injection Hk as ->. by rewrite Hg.
  - f_equal. by apply IH.
Qed.

Lemma blog_create_step title content tags excerpt (s : State Manager) :
  storageFull (browser s) = false ->
  exists s',
    (createPost env title content tags excerpt;; ret tt) s = Normal tt s' /\
    storageFull (browser s') = false /\
    page_ok (this s') /\ in_sync env s' /\
    exists p, posts (this s') = p :: posts (this s).
Proof.
  intros Hf. js_run. rewrite Hf. cbn. eexists. split; [reflexivity|]. cbn.
  split; [done|]. unfold page_ok, in_sync, filteredPosts. cbn.
  rewrite lookup_insert_eq. split; [by repeat split|]. split; [done|].
  by eexists.
Qed.

Lemma blog_update_step i title content tags excerpt (s : State Manager) :
  storageFull (browser s) = false ->
  exists s',
    (updatePost env i title content tags excerpt;; ret tt) s = Normal tt s' /\
    storageFull (browser s') = false /\
    (page_ok (this s) -> page_ok (this s')) /\
    (in_sync env s -> in_sync env s') /\
    (posts (this s') = posts (this s) \/
     exists k old new, posts (this s) !! k = Some old /\ id new = id old /\
       createdAt new = createdAt old /\
       posts (this s') = <[k := new]> (posts (this s))).
Proof.
  intros Hf. unfold updatePost. js_monad.
  destruct (findIndex (has_id i) (posts (this s))) as [k|] eqn:E.
  2:{ exists s. split; [reflexivity|]. split; [done|]. split; [done|].
      split; [done|]. by left. }
  apply findIndex_Some in E as (old & Hk & _).
  js_run. rewrite Hk, Hf. cbn. eexists. split; [reflexivity|]. cbn.
  split; [done|]. unfold page_ok, in_sync, filteredPosts. cbn.
  rewrite lookup_insert_eq. split; [intros _; by repeat split|].
  split; [done|]. right.
  exists k, old, {| id := id old; title := title; content := content;
                    tags := tags; excerpt := excerpt;
                    createdAt := createdAt old |}.
  by repeat split.
Qed.

(** What one command does while the storage accepts writes. *)
Lemma blog_exec_step (c : Command) (s : State Manager) :
  storageFull (browser s) = false ->
  let l := posts (this s) in
  exists s',
    exec env c s = Normal tt s' /\
    storageFull (browser s') = false /\
    (page_ok (this s) -> page_ok (this s')) /\
    (in_sync env s -> in_sync env s') /\
    (posts (this s') = l \/
     (creates c = true /\ exists p, posts (this s') = p :: l) \/
     (exists k old new, l !! k = Some old /\ id new = id old /\
                        createdAt new = createdAt old /\
                        posts (this s') = <[k := new]> l) \/
     (exists k, posts (this s') = delete k l)).
Proof.
  intros Hf l. subst l.
  assert (exists s', (ret tt : js _ _) s = Normal tt s' /\
            storageFull (browser s') = false /\
            (page_ok (this s) -> page_ok (this s')) /\
            (in_sync env s -> in_sync env s') /\
            (posts (this s') = posts (this s) \/
             (creates c = true /\ exists p, posts (this s') = p :: posts (this s)) \/
             (exists k old new, posts (this s) !! k = Some old /\ id new = id old /\
                createdAt new = createdAt old /\
                posts (this s') = <[k := new]> (posts (this s))) \/
             (exists k, posts (this s') = delete k (posts (this s)))))
    as Hskip.
  { exists s. split; [reflexivity|]. split; [done|]. split; [done|].
    split; [done|]. by left. }
  destruct c as [title content tags excerpt|i title content tags excerpt|i
                 |a b c0| | |i|i|q]; unfold exec.
  - destruct (blog_create_step title content tags excerpt s Hf) as (s' & E & ? & ? & ? & ?).
    exists s'. split; [done|]. split; [done|]. split; [done|]. split; [done|].
    right. by left.
  - destruct (blog_update_step i title content tags excerpt s Hf)
      as (s' & E & ? & ? & ? & Hsh).
    exists s'. split; [done|]. split; [done|]. split; [done|]. split; [done|].
    destruct Hsh; [by left | right; right; by left].
  - unfold deletePost. js_monad.
    destruct (findIndex (has_id i) (posts (this s))) as [k|]; [|apply Hskip].
    destruct (confirm env _); [|apply Hskip].
    js_run. rewrite Hf. cbn. eexists. split; [reflexivity|]. cbn.
    split; [done|]. unfold page_ok, in_sync, filteredPosts. cbn.
    rewrite lookup_insert_eq. split; [intros _; by repeat split|].
    split; [done|]. do 3 right. by exists k.
  - unfold handleFormSubmission.
    destruct (negb (truthy (trim a)) || negb (truthy (trim b))).
    + js_run. eexists. split; [reflexivity|]. cbn.
      split; [done|]. split; [done|]. split; [done|]. by left.
    + js_monad. destruct (_ && _).
      * destruct (blog_update_step (default "" (currentPostId (this s)))
                    (trim a) (trim b) (tagsArr c0)
                    (generateExcerpt (trim b) None) s Hf)
          as (s' & E & ? & ? & ? & Hsh).
        unfold mbind, js_mbind, bind in E.
        destruct (updatePost env _ _ _ _ _ s) as [v s1|e s1]; [|discriminate].
        injection E as <-. exists s1.
        split; [done|]. split; [done|]. split; [done|]. split; [done|].
        destruct Hsh; [by left | right; right; by left].
      * destruct (blog_create_step (trim a) (trim b) (tagsArr c0)
                    (generateExcerpt (trim b) None) s Hf)
          as (s' & E & ? & ? & ? & ?).
        unfold mbind, js_mbind, bind in E.
        destruct (createPost env _ _ _ _ s) as [v s1|e s1]; [|discriminate].
        injection E as <-. exists s1.
        split; [done|]. split; [done|]. split; [done|]. split; [done|].
        right. by left.
  - js_run. eexists. split; [reflexivity|]. cbn.
    split; [done|]. split; [done|]. split; [done|]. by left.
  - unfold showCreateForm. js_run. eexists. split; [reflexivity|]. cbn.
    split; [done|]. split; [done|]. split; [done|]. by left.
  - unfold showEditForm. js_monad.
    destruct (find (has_id i) (posts (this s))); [|apply Hskip].
    js_run. eexists. split; [reflexivity|]. cbn.
    split; [done|]. split; [done|]. split; [done|]. by left.
  - unfold showPostView. js_monad.
    destruct (find (has_id i) (posts (this s))); [|apply Hskip].
    js_run. eexists. split; [reflexivity|]. cbn.
    split; [done|]. split; [done|]. split; [done|]. by left.
  - js_run. eexists. split; [reflexivity|]. cbn. split; [done|].
    unfold page_ok, in_sync. cbn. split; [|split; [done | by left]].
    intros (? & ? & _ & _). split; [done|]. split; [done|]. split; [|done].
    unfold filteredPosts. destruct (truthy _); [apply filter_bool_sublist | done].
Qed.

Lemma blog_exec_all_step (cs : list Command) (s : State Manager) :
  storageFull (browser s) = false ->
  exists s',
    exec_all env cs s = Normal tt s' /\
    storageFull (browser s') = false /\
    (page_ok (this s) -> page_ok (this s')) /\
    (in_sync env s -> in_sync env s') /\
    (forallb (fun c => negb (creates c)) cs = true ->
     map (fun p => (id p, createdAt p)) (posts (this s'))
       `sublist_of` map (fun p => (id p, createdAt p)) (posts (this s))).
Proof.
  revert s. induction cs as [|c cs IH]; intros s Hf; cbn [exec_all].
  - exists s. split; [done|]. split; [done|]. split; [done|]. by split.
  - destruct (blog_exec_step c s Hf) as (s1 & E1 & Hf1 & Hp1 & Hs1 & Hshape).
    destruct (IH s1 Hf1) as (s2 & E2 & Hf2 & Hp2 & Hs2 & Hids).
    exists s2. split; [js_monad; by rewrite E1|].
    split; [done|]. split; [tauto|]. split; [tauto|].
    intros Hcs. cbn in Hcs. apply andb_true_iff in Hcs as [Hc Hcs].
    apply negb_true_iff in Hc. etrans; [by apply Hids|].
    destruct Hshape as [->|[[? _]|[(k & old & new & Hk & Hi & Hd & ->)|[k ->]]]].
    + done.
    + congruence.
    + erewrite map_insert_same; [done..|]. cbn. by rewrite Hi, Hd.
    + apply sublist_map, sublist_delete.
Qed.

(** X11: While the storage accepts writes, no sequence of commands makes the
    blog manager throw, and the page stays consistent with the
    collection: the counters are the number of posts and of their
    words, every card shown is a post of the collection (none that was
    deleted), in the collection's order, and the empty indicator is on
    exactly when no card is shown. *)
Theorem blog_page_stays_consistent (cs : list Command) (s : State Manager) :
  storageFull (browser s) = false -> page_ok (this s) ->
  exists s', exec_all env cs s = Normal tt s' /\ page_ok (this s').
Proof.
  intros Hf H. destruct (blog_exec_all_step cs s Hf) as (s' & E & _ & Hp & _).
  exists s'. auto.
Qed.

(** X12: While the storage accepts writes, the stored text stays the
    serialised collection of posts through every sequence of commands. *)
Theorem blog_storage_stays_in_sync (cs : list Command) (s : State Manager) :
  storageFull (browser s) = false -> in_sync env s ->
  in_sync env (final (exec_all env cs s)).
Proof.
  intros Hf H. destruct (blog_exec_all_step cs s Hf) as (s' & -> & _ & _ & Hs & _).
  by apply Hs.
Qed.

(** X13: A post keeps its identifier and its creation time: along a sequence
    of commands that creates nothing (storage accepting writes), the
    pairs of identifier and creation time in the collection are, in
    their order, among those it started with. *)
Theorem blog_id_and_createdAt_fixed (cs : list Command) (s : State Manager) :
  storageFull (browser s) = false ->
  forallb (fun c => negb (creates c)) cs = true ->
  map (fun p => (id p, createdAt p)) (posts (this (final (exec_all env cs s))))
    `sublist_of` map (fun p => (id p, createdAt p)) (posts (this s)).
Proof.
  intros Hf Hcs.
  destruct (blog_exec_all_step cs s Hf) as (s' & -> & _ & _ & _ & Hids).
  by apply Hids.
Qed.


(** X15: After a change that the storage accepts, the manager is back in the
    list view and shows the whole collection, whatever search was on
    the page before: this holds after [createPost], after [updatePost]
    on a post that is there and after a confirmed [deletePost] on a
    post that is there. *)
Theorem blog_change_returns_to_full_list
    (title content : string) (tags : list string) (excerpt : string)
    (i : string) (k : nat) (old : Post) (s : State Manager) :
  storageFull (browser s) = false ->
  let back (c : completion (State Manager) (value Post)) :=
    exists s', c = Normal Undefined s' /\
      currentView (this s') = "list" /\
      postsList (this s') = posts (this s') in
  back (createPost env title content tags excerpt s) /\
  (first_with_id id i (posts (this s)) k old ->
   back (updatePost env i title content tags excerpt s) /\
   (confirm env (deletePost_prompt old) = true -> back (deletePost env i s))).
Proof.
  intros Hf back. subst back. split.
  - js_run. rewrite Hf. cbn. eexists. split; [reflexivity|]. by cbn.
  - intros H. pose proof H as (Hk & _). split.
    + unfold updatePost, has_id. js_monad.
      rewrite (findIndex_first id _ _ _ _ H).
      js_run. rewrite Hk, Hf. cbn. eexists. split; [reflexivity|]. by cbn.
    + intros Hc. unfold deletePost, has_id. js_monad.
      rewrite (findIndex_first id _ _ _ _ H), Hk.
      unfold deletePost_prompt in Hc. rewrite Hc.
      js_run. rewrite Hf. cbn. eexists. split; [reflexivity|]. by cbn.
Qed.

(** X16: The form follows the view.  After [showEditForm] on a post that is
    there (with a non-empty identifier), a valid submission rewrites
    that post in place and adds nothing; after [showCreateForm], a valid
    submission adds a post at the head, also when an identifier from an
    earlier edit is still remembered. *)
Theorem blog_form_follows_view
    (postTitle postContent postTags : string)
    (i : string) (k : nat) (old : Post) (s : State Manager) :
  truthy (trim postTitle) = true -> truthy (trim postContent) = true ->
  (first_with_id id i (posts (this s)) k old -> i <> "" ->
   posts (this (final (handleFormSubmission env postTitle postContent postTags
                         (final (showEditForm i s)))))
     = <[k := {| id := id old; title := trim postTitle;
                 content := trim postContent; tags := tagsArr postTags;
                 excerpt := generateExcerpt (trim postContent) None;
                 createdAt := createdAt old |}]> (posts (this s))) /\
  (exists p,
     posts (this (final (handleFormSubmission env postTitle postContent postTags
                           (final (showCreateForm s)))))
       = p :: posts (this s) /\
     title p = trim postTitle /\ content p = trim postContent).
Proof.
  intros Ht Hc. split.
  - intros H Hne. pose proof H as (Hk & _).
    assert (final (showEditForm i s) =
            {| this := set_currentPostId (Some i) (set_currentView "edit" (this s));
               browser := browser s |}) as ->.
    { unfold showEditForm. js_monad. rewrite find_findIndex.
      unfold has_id. rewrite (findIndex_first id _ _ _ _ H). cbn. by rewrite Hk. }
    rewrite handleFormSubmission_valid by done. cbn [this currentView set_currentPostId
      set_currentView currentPostId]. change (default "" (Some i)) with i.
    assert (truthy i = true) as -> by by apply truthy_true.
    rewrite String.eqb_refl. cbn [andb].
    pose proof (updatePost_present env i (trim postTitle) (trim postContent)
                  (tagsArr postTags) (generateExcerpt (trim postContent) None)
                  {| this := set_currentPostId (Some i) (set_currentView "edit" (this s));
                     browser := browser s |} k old H) as Hu.
    unfold mbind, js_mbind, bind.
    destruct (updatePost env i _ _ _ _ _) as [v s1|e s1]; exact Hu.
  - assert (final (showCreateForm s) =
            {| this := set_currentView "create" (this s); browser := browser s |}) as ->
      by done.
    rewrite handleFormSubmission_valid by done.
    cbn [this currentView set_currentView]. cbn [String.eqb Ascii.eqb Bool.eqb andb].
    js_run. destruct (storageFull (browser s)); cbn;
      eexists; (split; [reflexivity|]); by split.
Qed.

End BlogSessions.

Section BlogStart.
Import Js Spec BlogManager BlogCommands.
Context (env : Platform Post).

(** X17: [new BlogManager()] on a storage whose text under [blog-posts] is
    missing, empty, not JSON, or the JSON form of an array of post
    records.  On a missing key or an empty text it starts with no post;
    on the JSON form of an array of posts it starts with these posts.
    In these three cases it leaves the browser as it is and ends in the
    list view showing the whole collection with matching counters.  On
    a text that is not JSON it ends in the [SyntaxError], which nothing
    catches. *)
Theorem blog_constructor_loads (b : Browser) :
  let started (v : list Post) :=
    exists s',
      new env b = Normal tt s' /\
      browser s' = b /\
      posts (this s') = v /\
      postsList (this s') = v /\
      currentView (this s') = "list" /\
      currentPostId (this s') = None /\
      page_ok (this s') in
  match localStorage b !! "blog-posts" with
  | Some raw =>
      if truthy raw
      then match JSON_parse env raw with
           | Some v => started v
           | None => exists s', new env b = Throw SyntaxError s'
           end
      else started []
  | None => started []
  end.
Proof.
  intros started. subst started.
  unfold new, constructor, init, loadPosts. js_run.
  destruct (localStorage b !! "blog-posts") as [raw|]; cbn.
  - destruct (truthy raw); cbn.
    + destruct (JSON_parse env raw) as [v|]; cbn.
      * eexists. split; [reflexivity|]. cbn. unfold page_ok. cbn. by repeat split.
      * by eexists.
    + eexists. split; [reflexivity|]. cbn. unfold page_ok. cbn. by repeat split.
  - eexists. split; [reflexivity|]. cbn. unfold page_ok. cbn. by repeat split.
Qed.

(** X18: A blog manager started on the storage another one left finds the
    same posts and shows them all, when the platform's [JSON.parse]
    reads back what its [JSON.stringify] wrote for that collection. *)
Theorem blog_reload_round_trip (s : State Manager) :
  in_sync env s ->
  truthy (JSON_stringify env (posts (this s))) = true ->
  JSON_parse env (JSON_stringify env (posts (this s))) = Some (posts (this s)) ->
  exists s',
    new env (browser s) = Normal tt s' /\
    posts (this s') = posts (this s) /\
    postsList (this s') = posts (this s) /\
    currentView (this s') = "list".
Proof.
  intros Hs Ht Hp. unfold in_sync in Hs.
  unfold new, constructor, init, loadPosts. js_run.
  rewrite Hs. cbn. rewrite Ht, Hp. cbn.
  eexists. split; [reflexivity|]. by cbn.
Qed.

End BlogStart.

Section BlogExamples.
Import Js.

Lemma blog_page_witness :
  exists s',
    BlogCommands.exec_all (Sample.blog_platform true)
        [BlogCommands.ShowCreateForm;
         BlogCommands.SubmitForm "Hi" "This is a long body text" "tag1, tag2";
         BlogCommands.Search " body ";
         BlogCommands.ShowEditForm "1700000000000";
         BlogCommands.SubmitForm "Hello" "Shorter" "";
         BlogCommands.DeletePost "1700000000000"]
        (Sample.blog_state [] "list" None Sample.browser0)
      = Normal tt s' /\
    BlogCommands.page_ok (this s').
Proof.
  apply (blog_page_stays_consistent (Sample.blog_platform true)).
  - reflexivity.
  - unfold BlogCommands.page_ok. cbn. by repeat split.
Defined.

Lemma blog_sync_witness :
  BlogCommands.in_sync (Sample.blog_platform true)
    (final (BlogCommands.exec_all (Sample.blog_platform true)
              [BlogCommands.SubmitForm "Hi" "This is a long body text" "tag1, tag2";
               BlogCommands.UpdatePost "1700000000000" "Hello" "Body" [] "Body"]
              (Sample.blog_state [] "create" None
                 (Reload.browser_with "blog-posts" "[]")))).
Proof.
  apply (blog_storage_stays_in_sync (Sample.blog_platform true)).
  - reflexivity.
  - unfold BlogCommands.in_sync. cbn. apply lookup_singleton_eq.
Defined.

Lemma blog_id_and_createdAt_witness :
  map (fun p => (BlogManager.id p, BlogManager.createdAt p))
    (BlogManager.posts
       (this (final (BlogCommands.exec_all (Sample.blog_platform true)
                       [BlogCommands.ShowPostView "1699999999000";
                        BlogCommands.UpdatePost "1699999999000" "Hello" "Shorter" [] "Shorter"]
                       (Sample.blog_state [Sample.hello] "list" None Sample.browser0)))))
    `sublist_of` [("1699999999000", "2023-11-14T22:13:19.000Z")].
Proof.
  apply (blog_id_and_createdAt_fixed (Sample.blog_platform true)
           [BlogCommands.ShowPostView "1699999999000";
            BlogCommands.UpdatePost "1699999999000" "Hello" "Shorter" [] "Shorter"]
           (Sample.blog_state [Sample.hello] "list" None Sample.browser0));
    reflexivity.
Defined.

Lemma hello_is_first :
  Spec.first_with_id BlogManager.id "1699999999000" [Sample.hello] 0 Sample.hello.
Proof.
  split; [reflexivity|]. split; [reflexivity|]. intros j y Hj. lia.
Defined.


Lemma blog_change_witness :
  exists s',
    BlogManager.createPost (Sample.blog_platform true) "Hi" "Body" [] "Body"
        (final (BlogManager.renderPostsList (Some "zzz")
                  (Sample.blog_state [Sample.hello] "create" None Sample.browser0)))
      = Normal Undefined s' /\
    BlogManager.currentView (this s') = "list" /\
    BlogManager.postsList (this s') = BlogManager.posts (this s').
Proof.
  destruct (blog_change_returns_to_full_list (Sample.blog_platform true)
              "Hi" "Body" [] "Body" "1699999999000" 0 Sample.hello
              (final (BlogManager.renderPostsList (Some "zzz")
                        (Sample.blog_state [Sample.hello] "create" None Sample.browser0)))
              eq_refl) as [H _].
  exact H.
Defined.

Lemma blog_form_witness :
  BlogManager.posts
    (this (final (BlogManager.handleFormSubmission (Sample.blog_platform true)
                    " Hello " "Shorter" "x, y"
                    (final (BlogManager.showEditForm "1699999999000"
                              (Sample.blog_state [Sample.hello] "list" None
                                 Sample.browser0))))))
  = [ {| BlogManager.id := "1699999999000"; BlogManager.title := "Hello";
         BlogManager.content := "Shorter"; BlogManager.tags := ["x"; "y"];
         BlogManager.excerpt := "Shorter";
         BlogManager.createdAt := "2023-11-14T22:13:19.000Z" |} ].
Proof.
  destruct (blog_form_follows_view (Sample.blog_platform true)
              " Hello " "Shorter" "x, y" "1699999999000" 0 Sample.hello
              (Sample.blog_state [Sample.hello] "list" None Sample.browser0)
              eq_refl eq_refl) as [H _].
  rewrite (H hello_is_first); [reflexivity | discriminate].
Defined.

Lemma blog_reload_witness :
  exists s',
    BlogManager.new (Reload.platform Sample.post_json [Sample.hello] true)
        (Reload.browser_with "blog-posts" (Sample.array [Sample.post_json Sample.hello]))
      = Normal tt s' /\
    BlogManager.posts (this s') = [Sample.hello] /\
    BlogManager.postsList (this s') = [Sample.hello] /\
    BlogManager.currentView (this s') = "list".
Proof.
  apply (blog_reload_round_trip (Reload.platform Sample.post_json [Sample.hello] true)
           (Sample.blog_state [Sample.hello] "list" None
              (Reload.browser_with "blog-posts"
                 (Sample.array [Sample.post_json Sample.hello])))).
  - unfold BlogCommands.in_sync. cbn. apply lookup_singleton_eq.
  - reflexivity.
  - reflexivity.
Defined.

End BlogExamples.

(** ** White space, words and truncation *)

Section Words.
Import Js Spec Utils.

Lemma blank_nil : blank "".
Proof. intros c Hc. by apply elem_of_nil in Hc. Qed.

Lemma blank_cons c s : blank (String c s) <-> isWhiteSpace c = true /\ blank s.
Proof.
  unfold blank. cbn. split.
  - intros H. split; [apply H; by left | intros c' Hc'; apply H; by right].
  - intros [Hc Hs] c' [->|Hc']%elem_of_cons; auto.
Qed.

Lemma trimStart_blank s : trimStart s = "" <-> blank s.
Proof.
  induction s as [|c s IH]; [split; auto using blank_nil|].
  rewrite blank_cons. cbn. destruct (isWhiteSpace c).
  - rewrite IH. tauto.
  - split; [done | by intros [? _]].
Qed.

Lemma trimEnd_blank s : trimEnd s = "" <-> blank s.
Proof.
  induction s as [|c s IH]; [split; auto using blank_nil|].
  rewrite blank_cons, <- IH. cbn.
  destruct (trimEnd s); [|split; [done | by intros [_ ?]]].
  destruct (isWhiteSpace c); split; try done. by intros [? _].
Qed.

Lemma blank_trimStart s : blank (trimStart s) <-> blank s.
Proof.
  induction s as [|c s IH]; [done|]. cbn.
  destruct (isWhiteSpace c) eqn:E; [|done].
  rewrite IH, blank_cons. tauto.
Qed.

Lemma trim_blank s : trim s = "" <-> blank s.
Proof. unfold trim. by rewrite trimEnd_blank, blank_trimStart. Qed.

Lemma blank_white s :
  blank s <-> forall c, c ∈ list_ascii_of_string s -> white c.
Proof.
  unfold blank. split; intros H c Hc; apply isWhiteSpace_white; auto.
Qed.

(** X20: [ValidationUtils.isEmpty] on a string of code units below 256 (the
    strings of this development; [trim] strips further white space
    beyond that range, which is not covered): it holds exactly when
    every code unit of the string is TAB, LF, VT, FF, CR, the space or
    the no-break space, which the empty string satisfies. *)
Theorem isEmpty_iff_blank (str : string) :
  ValidationUtils.isEmpty str = true <->
  forall c, c ∈ list_ascii_of_string str -> white c.
Proof.
  rewrite <- blank_white.
  unfold ValidationUtils.isEmpty. rewrite <- trim_blank.
  destruct str as [|c str]; [done|]. cbn [truthy negb orb].
  rewrite Nat.eqb_eq. by destruct (trim (String c str)).
Qed.

Lemma length_append (a b : string) :
  String.length (a ++ b) = String.length a + String.length b.
Proof. induction a as [|c a IH]; [done|]. rewrite append_cons. cbn. by rewrite IH. Qed.

(** X21: [StringUtils.truncate] returns a string within the limit as it is.
    A longer one is cut to exactly the limit, a prefix of the string
    followed by the suffix, when the suffix fits in the limit; when the
    limit is shorter than the suffix the result is the suffix alone,
    which is longer than the limit. *)
Theorem truncate_fits (str : string) (n : nat) (suffix : option string) :
  let sfx := default "..." suffix in
  (String.length str <= n -> StringUtils.truncate str n suffix = str) /\
  (n < String.length str -> String.length sfx <= n ->
   String.length (StringUtils.truncate str n suffix) = n /\
   exists pre rest, str = pre ++ rest /\
                    StringUtils.truncate str n suffix = pre ++ sfx) /\
  (n < String.length str -> n < String.length sfx ->
   StringUtils.truncate str n suffix = sfx).
Proof.
  intros sfx. unfold StringUtils.truncate. fold sfx.
  split; [|split].
  - intros H. apply Nat.leb_le in H. rewrite H. by rewrite orb_true_r.
  - intros Hn Hs.
    assert (truthy str = true) as -> by (destruct str; [cbn in Hn; lia | done]).
    assert ((String.length str <=? n)%nat = false) as -> by (apply Nat.leb_gt; lia).
    cbn [negb orb].
    destruct (substring0_prefix (n - String.length sfx) str) as (rest & E & Hl); [lia|].
    split; [rewrite length_append, Hl; lia|].
    by exists (substring0 (n - String.length sfx) str), rest.
  - intros Hn Hs.
    assert (truthy str = true) as -> by (destruct str; [cbn in Hn; lia | done]).
    assert ((String.length str <=? n)%nat = false) as -> by (apply Nat.leb_gt; lia).
    cbn [negb orb]. replace (n - String.length sfx) with 0 by lia.
    unfold substring0. by destruct str.
Qed.

Lemma truncate_witness :
  StringUtils.truncate "hello world" 8 None = "hello..." /\
  StringUtils.truncate "hello world" 2 None = "...".
Proof.
  destruct (truncate_fits "hello world" 2 None) as (_ & _ & H).
  split; [reflexivity | apply H; cbn; lia].
Defined.

Lemma splitWs_pieces s :
  s <> "" -> trimEnd s = s ->
  Forall nonempty (splitWs true s) /\ Forall nonempty (tail (splitWs false s)).
Proof.
  induction s as [|c s IH]; [done|]. intros _ He.
  destruct (string_dec s "") as [->|Hs].
  { cbn in *. destruct (isWhiteSpace c) eqn:Ec; [done|].
    split; cbn; repeat constructor. done. }
  assert (trimEnd s = s) as Hes.
  { destruct (string_dec (trimEnd s) "") as [E0|E0].
    - cbn in He. rewrite E0 in He.
      destruct (isWhiteSpace c); [done | injection He; congruence].
    - rewrite trimEnd_cons_nonempty in He by done. by injection He. }
  destruct (IH Hs Hes) as [H1 H2]. cbn [splitWs].
  destruct (isWhiteSpace c); [by split|].
  destruct (splitWs false s) as [|h t] eqn:Esp; cbn in *.
  - split; repeat constructor; done.
  - split; [constructor; done | done].
Qed.

Lemma trimStart_head_nonws c s :
  trimStart (String c s) = String c s -> isWhiteSpace c = false.
Proof.
  cbn. destruct (isWhiteSpace c) eqn:E; [|done]. intros H.
  assert (String.length (trimStart s) <= String.length s) as Hle.
  { clear. induction s as [|a s IH]; cbn; [lia|].
    destruct (isWhiteSpace a); cbn; lia. }
  rewrite H in Hle. cbn in Hle. lia.
Qed.

Lemma splitWs_trimmed s :
  s <> "" -> trimEnd s = s -> trimStart s = s ->
  Forall nonempty (splitWs false s).
Proof.
  intros Hs He Hst. destruct (splitWs_pieces s Hs He) as [_ H2].
  destruct s as [|c s]; [done|].
  apply trimStart_head_nonws in Hst. cbn [splitWs] in *. rewrite Hst in *.
  destruct (splitWs false s) as [|h t]; cbn in *; constructor; done.
Qed.

Lemma filter_all {A} (p : A -> bool) (l : list A) :
  Forall (fun x => p x = true) l -> List.filter p l = l.
Proof. induction 1 as [|a l Ha Hl IH]; cbn; [done|]. by rewrite Ha, IH. Qed.

(** X22: The two word counters agree on every text that holds a character
    which is not white space, and count at least one word there.  They
    differ on a non-empty text of white space only, where
    [BlogManager.countWords] counts one word and [StringUtils.wordCount]
    none; on the empty text both give 0. *)
Theorem word_counters_agree_on_text (text : string) :
  (~ blank text ->
   BlogManager.countWords text = StringUtils.wordCount text /\
   1 <= BlogManager.countWords text) /\
  (blank text -> text <> "" ->
   BlogManager.countWords text = 1 /\ StringUtils.wordCount text = 0) /\
  BlogManager.countWords "" = 0 /\ StringUtils.wordCount "" = 0.
Proof.
  unfold BlogManager.countWords, StringUtils.wordCount.
  split; [|split; [|done]].
  - intros Hb.
    assert (text <> "") as Hne by (intros ->; apply Hb, blank_nil).
    apply truthy_true in Hne. rewrite Hne. cbn [negb].
    assert (trim text <> "") as Ht by by rewrite trim_blank.
    assert (Forall nonempty (splitWs false (trim text))) as Hall.
    { apply splitWs_trimmed; [done| |].
      - unfold trim. apply trimEnd_idemp.
      - unfold trim. by rewrite <- trimStart_trimEnd, trimStart_idemp. }
    rewrite filter_all.
    + split; [done|]. destruct (trim text); [done|]. cbn.
      destruct (isWhiteSpace a); [cbn; lia|].
      destruct (splitWs false s); cbn; lia.
    + eapply Forall_impl; [exact Hall|]. intros [|? ?] Hx; [done | done].
  - intros Hb Hne. apply truthy_true in Hne. apply trim_blank in Hb.
    by rewrite Hne, Hb.
Qed.

End Words.

(** ** Removing duplicates *)

Section Unique.
Import Js Spec Utils.
Context {A : Type} (key : A -> string).

Lemma unique_go_sublist seen (l : list A) :
  ArrayUtils.unique_go key seen l `sublist_of` l.
Proof.
  revert seen. induction l as [|a l IH]; intros seen; cbn; [constructor|].
  case_decide; constructor; apply IH.
Qed.

Lemma unique_go_fresh seen (l : list A) x :
  x ∈ ArrayUtils.unique_go key seen l -> key x ∉ seen.
Proof.
  revert seen. induction l as [|a l IH]; intros seen; cbn.
  - by intros ?%elem_of_nil.
  - case_decide as Ha; [apply IH|].
    intros [->|Hx]%elem_of_cons; [done|]. apply IH in Hx. set_solver.
Qed.

Lemma unique_go_NoDup seen (l : list A) :
  NoDup (map key (ArrayUtils.unique_go key seen l)).
Proof.
  revert seen. induction l as [|a l IH]; intros seen; cbn; [constructor|].
  case_decide as Ha; [apply IH|]. cbn. constructor; [|apply IH].
  change (map key ?l) with (key <$> l).
  intros (y & Hy & Hin)%list_elem_of_fmap. apply unique_go_fresh in Hin.
  set_solver.
Qed.

Lemma unique_go_covers seen (l : list A) x :
  x ∈ l -> key x ∈ seen \/ key x ∈ map key (ArrayUtils.unique_go key seen l).
Proof.
  revert seen. induction l as [|a l IH]; intros seen; cbn.
  - by intros ?%elem_of_nil.
  - intros [->|Hx]%elem_of_cons.
    + case_decide; [by left | right; cbn; by left].
    + case_decide as Ha; [by apply IH|].
      destruct (IH ({[key a]} ∪ seen) Hx) as [Hs|Hr].
      * apply elem_of_union in Hs as [->%elem_of_singleton|Hs]; [|by left].
        right. cbn. by left.
      * right. cbn. by right.
Qed.

Lemma unique_go_id seen (l : list A) :
  NoDup (map key l) -> (forall x, x ∈ l -> key x ∉ seen) ->
  ArrayUtils.unique_go key seen l = l.
Proof.
  revert seen. induction l as [|a l IH]; intros seen Hnd Hs; cbn; [done|].
  cbn in Hnd. apply NoDup_cons in Hnd as [Ha Hnd].
  case_decide as Hin; [exfalso; apply (Hs a); [by left | done]|].
  f_equal. apply IH; [done|]. intros x Hx Hxs.
  apply elem_of_union in Hxs as [Hk%elem_of_singleton|Hxs].
  - apply Ha. rewrite <- Hk. change (map key l) with (key <$> l).
    by apply list_elem_of_fmap_2.
  - apply (Hs x); [by right | done].
Qed.



End Unique.

Section UniqueValues.
Import Js Spec Utils.

Lemma unique_go_strike (seen : gset string) (x : string) (l : list string) :
  ArrayUtils.unique_go (fun y => y) ({[x]} ∪ seen) l =
  ArrayUtils.unique_go (fun y => y) seen
    (List.filter (fun y => negb (String.eqb y x)) l).
Proof.
  revert seen. induction l as [|a l IH]; intros seen; [done|]. cbn.
  destruct (String.eqb_spec a x) as [->|Hne]; cbn.
  - rewrite decide_True by set_solver. apply IH.
  - destruct (decide (a ∈ seen)) as [Hin|Hout].
    + rewrite decide_True by set_solver. apply IH.
    + rewrite decide_False
        by (rewrite elem_of_union, elem_of_singleton; by intros [?|?]).
      f_equal. rewrite <- IH. f_equal.
      by rewrite !(assoc_L (∪)), (comm_L (∪) {[a]} {[x]}).
Qed.

(** X24: [ArrayUtils.unique] without a key, on strings: the result has no
    repetition, is taken from the array in its order and holds exactly
    the strings of the array.  Its order is that of first occurrence:
    the first string of the array comes first, followed by what the
    function gives for the rest of the array with that string struck
    out.  An array without repetition comes back as it is. *)
Theorem unique_values_are_the_elements (array : list string) :
  NoDup (ArrayUtils.unique_values array) /\
  ArrayUtils.unique_values array `sublist_of` array /\
  (forall x, x ∈ ArrayUtils.unique_values array <-> x ∈ array) /\
  ArrayUtils.unique_values [] = [] /\
  (forall x rest,
     ArrayUtils.unique_values (x :: rest) =
       x :: ArrayUtils.unique_values
              (List.filter (fun y => negb (String.eqb y x)) rest)) /\
  (NoDup array -> ArrayUtils.unique_values array = array).
Proof.
  unfold ArrayUtils.unique_values.
  pose proof (unique_go_sublist (fun x : string => x) ∅ array) as Hsub.
  pose proof (unique_go_NoDup (fun x : string => x) ∅ array) as Hnd.
  rewrite map_id in Hnd. split; [done|]. split; [done|]. split; [|split; [done|split]].
  - intros x. split; [intros Hx; by eapply elem_of_sublist|].
    intros Hx. destruct (unique_go_covers (fun x : string => x) ∅ array x Hx) as [?|Hc];
      [set_solver | by rewrite map_id in Hc].
  - intros x rest. cbn. rewrite decide_False by set_solver. f_equal.
    apply unique_go_strike.
  - intros Hn. apply unique_go_id; [by rewrite map_id | set_solver].
Qed.

(** With a repetition: the second b and the second a are dropped, and c
    keeps its place after them. *)
Example unique_values_ex :
  ArrayUtils.unique_values ["b"; "a"; "b"; "c"; "a"] = ["b"; "a"; "c"].
Proof. by vm_compute. Qed.

End UniqueValues.

(** ** The storage helper *)

Section Storage.
Import Js Spec Utils.
Context {T M : Type} (env : Platform T).

Lemma storage_helper_save_eq (key : string) (data : list T) (s : State M) :
  StorageHelper.save env key data s =
    if storageFull (browser s) then Normal false s
    else Normal true
           {| this := this s;
              browser := {| localStorage :=
                              <[key := JSON_stringify env data]> (localStorage (browser s));
                            storageFull := storageFull (browser s);
                            clockReads := clockReads (browser s);
                            notification := notification (browser s) |} |}.
Proof.
  unfold StorageHelper.save. js_monad. by destruct (storageFull (browser s)).
Qed.

(** X25: [StorageHelper] never throws.  [save] on a storage that refuses the
    write returns [false] and changes nothing; otherwise it returns
    [true] and puts the serialised data under the key.  [load] changes
    nothing and gives the default value for a missing key, for an empty
    stored text and for a text that is not JSON, and the value read
    otherwise. *)
Theorem storage_helper_never_throws
    (key : string) (data : list T) (defaultValue : option (list T))
    (s : State M) :
  (StorageHelper.save env key data s =
     if storageFull (browser s) then Normal false s
     else Normal true
            {| this := this s;
               browser := {| localStorage :=
                               <[key := JSON_stringify env data]> (localStorage (browser s));
                             storageFull := storageFull (browser s);
                             clockReads := clockReads (browser s);
                             notification := notification (browser s) |} |}) /\
  StorageHelper.load env key defaultValue s =
    Normal (match localStorage (browser s) !! key with
            | Some raw =>
                if truthy raw
                then match JSON_parse env raw with
                     | Some v => Some v
                     | None => defaultValue
                     end
                else defaultValue
            | None => defaultValue
            end) s.
Proof.
  split.
  - unfold StorageHelper.save. js_monad. by destruct (storageFull (browser s)).
  - unfold StorageHelper.load. js_monad.
    destruct (localStorage (browser s) !! key) as [raw|]; [|done].
    destruct (truthy raw); [|done]. by destruct (JSON_parse env raw).
Qed.

(** X26: What [save] stored, [load] gives back: after a [save] that the
    storage accepts, [load] of the same key returns the data (when the
    platform's [JSON.parse] reads back what its [JSON.stringify] wrote
    for it), every other key holds what it held, and after [remove] of
    the key [load] returns the default value again. *)
Theorem storage_helper_round_trip
    (key : string) (data : list T) (defaultValue : option (list T))
    (s : State M) :
  storageFull (browser s) = false ->
  truthy (JSON_stringify env data) = true ->
  JSON_parse env (JSON_stringify env data) = Some data ->
  let s1 := final (StorageHelper.save env key data s) in
  let s2 := final (StorageHelper.remove (M := M) key s1) in
  StorageHelper.load env key defaultValue s1 = Normal (Some data) s1 /\
  (forall other, other <> key ->
     localStorage (browser s1) !! other = localStorage (browser s) !! other) /\
  StorageHelper.load env key defaultValue s2 = Normal defaultValue s2.
Proof.
  intros Hf Ht Hp s1 s2. subst s1 s2.
  rewrite storage_helper_save_eq, Hf. cbn [final].
  split; [|split].
  - unfold StorageHelper.load. js_monad. cbn.
    by rewrite lookup_insert_eq, Ht, Hp.
  - intros other Hne. cbn. by rewrite lookup_insert_ne.
  - unfold StorageHelper.load, StorageHelper.remove, localStorage_removeItem.
    js_monad. cbn. by rewrite lookup_delete_eq.
Qed.

End Storage.

Section StorageExamples.
Import Js Utils.

Lemma storage_helper_witness :
  StorageHelper.load (Reload.platform Sample.todo_json [Sample.milk] true)
      "backup" None
      (final (StorageHelper.save (Reload.platform Sample.todo_json [Sample.milk] true)
                "backup" [Sample.milk]
                {| this := tt; browser := Sample.browser0 |}))
    = Normal (Some [Sample.milk])
        (final (StorageHelper.save (Reload.platform Sample.todo_json [Sample.milk] true)
                  "backup" [Sample.milk]
                  {| this := tt; browser := Sample.browser0 |})).
Proof.
  apply (storage_helper_round_trip
           (Reload.platform Sample.todo_json [Sample.milk] true)
           "backup" [Sample.milk] None
           {| this := tt; browser := Sample.browser0 |});
    reflexivity.
Defined.

End StorageExamples.

(** ** The todo form *)

Section TodoForm.
Import Js Spec TodoManager.
Context (env : Platform Todo).

(** X10: The submit listener of the todo form adds a record exactly when the
    text input holds a character that is not white space.  The record
    goes to the head of the collection with the trimmed input as text,
    the selected priority, the date of the date input, and not
    completed; a blank input leaves the whole state as it is. *)
Theorem todo_form_adds_iff_not_blank
    (todoInput prioritySelect dueDateInput : string) (s : State Manager) :
  (blank todoInput ->
   todoForm_submit env todoInput prioritySelect dueDateInput s = Normal tt s) /\
  (~ blank todoInput ->
   exists s',
     todoForm_submit env todoInput prioritySelect dueDateInput s = Normal tt s' /\
     todos (this s') =
       {| id := toString (Date_now env (clockReads (browser s)));
          text := trim todoInput;
          completed := false;
          priority := prioritySelect;
          dueDate := dueDateInput;
          createdAt := toISOString env (Date_now env (S (clockReads (browser s)))) |}
       :: todos (this s)).
Proof.
  split.
  - intros Hb%trim_blank. unfold todoForm_submit. by rewrite Hb.
  - intros Hb. unfold todoForm_submit.
    assert (truthy (trim todoInput) = true) as ->
      by by rewrite truthy_true, trim_blank.
    js_run. destruct (storageFull (browser s)); cbn; eexists; by split.
Qed.

End TodoForm.

(** ** The views of the blog manager *)

Section BlogViews.
Import Js Spec BlogManager BlogCommands.
Context (env : Platform Post).

(** The decimal form of a number has at least one digit. *)
Lemma toString_nonempty (n : N) : toString n <> "".
Proof.
  unfold toString. destruct n as [|p]; [done|]. cbn [N.to_uint].
  pose proof (DecimalPos.Unsigned.to_uint_nonnil p) as H.
  by destruct (Pos.to_uint p).
Qed.

Lemma view_ok_list (m : Manager) :
  currentView m = "list" -> Forall (fun p => id p <> "") (posts m) -> view_ok m.
Proof.
  intros E Hids. unfold view_ok. rewrite E. split; [set_solver | done].
Qed.

(** A post that carries an identifier makes some post the first that
    carries it. *)
Lemma first_with_id_exists (i : string) (l : list Post) (p : Post) :
  p ∈ l -> id p = i -> exists k old, first_with_id id i l k old.
Proof.
  intros Hin Hid.
  destruct (findIndex (has_id i) l) as [k|] eqn:E.
  - destruct (findIndex_first_inv id i l k E) as [old H]. by exists k, old.
  - exfalso. clear -Hin Hid E. induction Hin as [a l|a b l Hin IH]; cbn in E.
    + unfold has_id in E. rewrite Hid, String.eqb_refl in E. done.
    + destruct (has_id i b); [done|].
      destruct (findIndex (has_id i) l); [done | by apply IH].
Qed.

Lemma blog_view_step (c : Command) (s : State Manager) :
  storageFull (browser s) = false -> view_ok (this s) ->
  exists s', exec env c s = Normal tt s' /\
             storageFull (browser s') = false /\ view_ok (this s').
Proof.
  intros Hf Hv. pose proof Hv as (_ & Hids & _).
  assert (exists s', (ret tt : js _ _) s = Normal tt s' /\
            storageFull (browser s') = false /\ view_ok (this s')) as Hskip
    by (exists s; by split).
  assert (forall title content tags excerpt,
    exists s', (createPost env title content tags excerpt;; ret tt) s = Normal tt s' /\
       storageFull (browser s') = false /\ view_ok (this s')) as Hcreate.
  { intros. clear Hskip Hv. js_run. rewrite Hf. cbn. eexists. split; [reflexivity|].
    split; [done|]. apply view_ok_list; [done|]. cbn.
    constructor; [apply toString_nonempty | done]. }
  assert (forall i title content tags excerpt,
    exists s', (updatePost env i title content tags excerpt;; ret tt) s = Normal tt s' /\
       storageFull (browser s') = false /\ view_ok (this s')) as Hupdate.
  { intros. clear Hcreate. unfold updatePost. js_monad.
    destruct (findIndex (has_id i) (posts (this s))) as [k|] eqn:E; [|apply Hskip].
    apply findIndex_Some in E as (old & Hk & _). clear Hskip Hv.
    js_run. rewrite Hk, Hf. cbn. eexists. split; [reflexivity|].
    split; [done|]. apply view_ok_list; [done|]. cbn.
    apply Forall_insert; [done|]. cbn.
    by apply (Forall_lookup_1 _ _ _ _ Hids Hk). }
  destruct c as [title content tags excerpt|i title content tags excerpt|i
                 |a b c0| | |i|i|q]; unfold exec.
  - apply Hcreate.
  - apply Hupdate.
  - clear Hcreate Hupdate. unfold deletePost. js_monad.
    destruct (findIndex (has_id i) (posts (this s))) as [k|]; [|apply Hskip].
    destruct (confirm env _); [|apply Hskip]. clear Hskip Hv.
    js_run. rewrite Hf. cbn. eexists. split; [reflexivity|].
    split; [done|]. apply view_ok_list; [done|]. cbn. by apply Forall_delete.
  - destruct (truthy (trim a) && truthy (trim b)) eqn:Eab.
    2:{ unfold handleFormSubmission.
        assert (negb (truthy (trim a)) || negb (truthy (trim b)) = true) as ->
          by (destruct (truthy (trim a)), (truthy (trim b)); done).
        clear Hskip Hcreate Hupdate Hids. js_run.
        eexists. split; [reflexivity|]. by split. }
    apply andb_true_iff in Eab as [Ea Eb].
    unfold mbind, js_mbind, bind in *.
    rewrite handleFormSubmission_valid by done.
    unfold mbind, js_mbind, bind. destruct (_ && _).
    + destruct (Hupdate (default "" (currentPostId (this s))) (trim a) (trim b)
                  (tagsArr c0) (generateExcerpt (trim b) None)) as (s' & E & ? & ?).
      destruct (updatePost env _ _ _ _ _ s) as [v s1|e s1]; [|discriminate].
      injection E as <-. by exists s1.
    + destruct (Hcreate (trim a) (trim b) (tagsArr c0)
                  (generateExcerpt (trim b) None)) as (s' & E & ? & ?).
      destruct (createPost env _ _ _ _ s) as [v s1|e s1]; [|discriminate].
      injection E as <-. by exists s1.
  - clear Hskip Hcreate Hupdate Hv. js_run. eexists. split; [reflexivity|].
    split; [done|]. by apply view_ok_list.
  - clear Hskip Hcreate Hupdate Hv. unfold showCreateForm. js_run.
    eexists. split; [reflexivity|]. split; [done|].
    unfold view_ok. cbn. split; [set_solver | by split].
  - clear Hcreate Hupdate. unfold showEditForm. js_monad.
    destruct (find (has_id i) (posts (this s))) as [post|] eqn:E; [|apply Hskip].
    clear Hskip Hv. apply find_some in E as [Hin Hid].
    apply String.eqb_eq in Hid. apply list_elem_of_In in Hin.
    js_run. eexists. split; [reflexivity|]. split; [done|].
    unfold view_ok. cbn. split; [set_solver|]. split; [done|]. intros _.
    exists i, post. split; [done|]. split; [|by split].
    rewrite <- Hid. by apply (proj1 (Forall_forall _ _) Hids).
  - clear Hcreate Hupdate. unfold showPostView. js_monad.
    destruct (find (has_id i) (posts (this s))) as [post|]; [|apply Hskip].
    clear Hskip Hv. js_run. eexists. split; [reflexivity|]. split; [done|].
    unfold view_ok. cbn. split; [set_solver | by split].
  - clear Hskip Hcreate Hupdate Hids. js_run.
    eexists. split; [reflexivity|]. by split.
Qed.

Lemma blog_view_all (cs : list Command) (s : State Manager) :
  storageFull (browser s) = false -> view_ok (this s) ->
  view_ok (this (final (exec_all env cs s))).
Proof.
  revert s. induction cs as [|c cs IH]; intros s Hf Hv; [done|].
  destruct (blog_view_step c s Hf Hv) as (s1 & E & Hf1 & Hv1).
  cbn [exec_all]. unfold mbind, js_mbind, bind. rewrite E. by apply IH.
Qed.

(** X19: While the storage accepts writes and no post has the empty
    identifier, every sequence of commands leaves the view one of list,
    create, edit and view and every identifier non-empty, and whenever
    it leaves the manager in the edit view the identifier it remembers
    is non-empty and carried by a post of the collection: a valid
    submission then rewrites the first post that carries it, in place,
    with the trimmed fields, and keeps its identifier and creation
    time. *)
Theorem blog_view_stays_valid (cs : list Command) (s : State Manager)
    (postTitle postContent postTags : string) :
  storageFull (browser s) = false -> view_ok (this s) ->
  let s1 := final (exec_all env cs s) in
  view_ok (this s1) /\
  (currentView (this s1) = "edit" ->
   truthy (trim postTitle) = true -> truthy (trim postContent) = true ->
   exists i k old,
     currentPostId (this s1) = Some i /\ i <> "" /\
     first_with_id id i (posts (this s1)) k old /\
     posts (this (final (handleFormSubmission env postTitle postContent postTags s1)))
       = <[k := {| id := id old; title := trim postTitle;
                   content := trim postContent; tags := tagsArr postTags;
                   excerpt := generateExcerpt (trim postContent) None;
                   createdAt := createdAt old |}]> (posts (this s1))).
Proof.
  intros Hf Hv s1.
  pose proof (blog_view_all cs s Hf Hv) as Hv1. fold s1 in Hv1.
  split; [done|]. intros Hedit Ht Hc.
  destruct Hv1 as (_ & _ & Hrem).
  destruct (Hrem Hedit) as (i & p & Hi & Hne & Hin & Hid).
  destruct (first_with_id_exists i _ p Hin Hid) as (k & old & Hfirst).
  exists i, k, old. split; [done|]. split; [done|]. split; [done|].
  rewrite handleFormSubmission_valid by done.
  rewrite Hedit, Hi. change (default "" (Some i)) with i.
  assert (truthy i = true) as -> by by apply truthy_true.
  cbn [String.eqb Ascii.eqb Bool.eqb andb].
  pose proof (updatePost_present env i (trim postTitle) (trim postContent)
                (tagsArr postTags) (generateExcerpt (trim postContent) None)
                s1 k old Hfirst) as Hu.
  unfold mbind, js_mbind, bind.
  destruct (updatePost env i _ _ _ _ _) as [v s2|e s2]; exact Hu.
Qed.

End BlogViews.

Section BlogViewExamples.
Import Js.

(** Opening the editor on the one post, searching, and asking for a post
    that is not there leaves the editor open on that post; the form then
    rewrites it. *)
Lemma blog_view_witness :
  let s1 := final (BlogCommands.exec_all (Sample.blog_platform true)
                     [BlogCommands.ShowEditForm "1699999999000";
                      BlogCommands.Search "hi";
                      BlogCommands.ShowPostView "nowhere"]
                     (Sample.blog_state [Sample.hello] "list" None Sample.browser0)) in
  BlogCommands.view_ok (this s1) /\
  BlogManager.currentView (this s1) = "edit" /\
  BlogManager.posts
    (this (final (BlogManager.handleFormSubmission (Sample.blog_platform true)
                    " Hello again " "New body" "tag3" s1)))
    = [{| BlogManager.id := "1699999999000"; BlogManager.title := "Hello again";
          BlogManager.content := "New body"; BlogManager.tags := ["tag3"];
          BlogManager.excerpt := "New body";
          BlogManager.createdAt := "2023-11-14T22:13:19.000Z" |}].
Proof.
  intros s1. subst s1.
  destruct (blog_view_stays_valid (Sample.blog_platform true)
              [BlogCommands.ShowEditForm "1699999999000";
               BlogCommands.Search "hi";
               BlogCommands.ShowPostView "nowhere"]
              (Sample.blog_state [Sample.hello] "list" None Sample.browser0)
              " Hello again " "New body" "tag3" eq_refl) as [Hv Hform].
  { split; [set_solver|]. split; [|done].
    constructor; [done | constructor]. }
  split; [exact Hv|]. split; [reflexivity|].
  destruct (Hform eq_refl eq_refl eq_refl) as (i & k & old & _ & _ & (Hk & _) & ->).
  destruct k as [|k]; [by injection Hk as <- | done].
Defined.

End BlogViewExamples.
